(** * Nifty 50 tracker: the data-acquisition and fallback pipeline of script.js

    A shallow embedding of [script.js].  The script is dynamically typed, so
    the data it moves around is kept as JavaScript values ([jsval]); property
    access, truthiness and the coercions the script relies on are written out.

    Conventions of the model
    - numbers are IEEE 754 doubles, each kept as the rational it is exactly
      (or an infinity, or NaN), with the rounding of every operation to the
      nearest double, ties to even, written out ([double]); the sign of zero
      is not represented;
    - string-valued data is left out of [jsval]: no operation of the script
      reads a string out of a payload or a cached record;
    - the text of the single local-storage slot is represented by what
      [JSON.parse] makes of it ([stored]);
    - the clock, [Math.random] and the two HTTP endpoints are oracles of the
      [world], indexed by the number of times they have been used;
    - the page (DOM) is a log of [textContent] writes whose formatted text is
      kept symbolic; the chart library is an external collaborator. *)

From Stdlib Require Import ZArith QArith Qround Qabs Qpower Bool List String Lia Lqa.
From Stdlib Require Import PrimFloat FloatOps SpecFloat Uint63.
Import ListNotations.

Set Warnings "-register-all".

Local Open Scope string_scope.
Local Open Scope list_scope.
Local Open Scope Z_scope.

(** ** Numbers *)

Module Num.

(** A JavaScript number, an IEEE 754 double.  A finite double is kept as
    the rational it is exactly; the operations round their exact result to
    the nearest double. *)
Inductive num : Type :=
| Fin (q : Q)
| PInf
| NInf
| NaN.

Definition zero : num := Fin 0.

Definition is_zero (q : Q) : bool := Qeq_bool q 0.
Definition is_pos (q : Q) : bool := (0 <? Qnum q)%Z.

Definition neg (a : num) : num :=
  match a with
  | Fin q => Fin (Qred (- q))
  | PInf => NInf
  | NInf => PInf
  | NaN => NaN
  end.

(** *** Rounding to binary64 *)

Definition pow2 (e : Z) : Q := (2 ^ e)%Q.

(** The [k] with [2^k <= q < 2^(k+1)], for [q] above zero. *)
Definition floor_log2 (q : Q) : Z :=
  let k := (Z.log2 (Qnum q) - Z.log2 (Zpos (Qden q)))%Z in
  if Qle_bool (pow2 k) q then k else (k - 1)%Z.

Definition round_half_even (q : Q) : Z :=
  let f := Qfloor q in
  match Qcompare (q - inject_Z f)%Q (1 # 2)%Q with
  | Lt => f
  | Gt => (f + 1)%Z
  | Eq => if Z.even f then f else (f + 1)%Z
  end.

(** The double nearest to [q], for [q] above zero: 53 bits of significand
    from [2^-1022] on, steps of [2^-1074] below, infinity from [2^1024]. *)
Definition round_positive (q : Q) : num :=
  let e := Z.max (floor_log2 q - 52) (-1074) in
  let v := (inject_Z (round_half_even (q / pow2 e)) * pow2 e)%Q in
  if Qle_bool (pow2 1024) v then PInf else Fin (Qred v).

(** The double nearest to [q]: what a numeric literal, a number in a JSON
    text or the exact result of an operation becomes. *)
Definition double (q : Q) : num :=
  match Qnum q with
  | Z0 => Fin 0
  | Zpos _ => round_positive q
  | Zneg _ => neg (round_positive (- q))
  end.

Arguments double : simpl never.

Definition add (a b : num) : num :=
  match a, b with
  | NaN, _ | _, NaN => NaN
  | Fin x, Fin y => double (x + y)
  | PInf, NInf | NInf, PInf => NaN
  | PInf, _ | _, PInf => PInf
  | NInf, _ | _, NInf => NInf
  end.

Definition sub (a b : num) : num := add a (neg b).

(** The infinity that carries the sign of [q], for [q] not zero. *)
Definition inf_of_sign (q : Q) : num := if is_pos q then PInf else NInf.

Definition mul (a b : num) : num :=
  match a, b with
  | NaN, _ | _, NaN => NaN
  | Fin x, Fin y => double (x * y)
  | Fin x, PInf | PInf, Fin x =>
      if is_zero x then NaN else inf_of_sign x
  | Fin x, NInf | NInf, Fin x =>
      if is_zero x then NaN else neg (inf_of_sign x)
  | PInf, PInf | NInf, NInf => PInf
  | PInf, NInf | NInf, PInf => NaN
  end.

Definition div (a b : num) : num :=
  match a, b with
  | NaN, _ | _, NaN => NaN
  | Fin x, Fin y =>
      if is_zero y
      then (if is_zero x then NaN else inf_of_sign x)
      else double (x / y)
  | Fin _, (PInf | NInf) => Fin 0
  | PInf, Fin y => if is_zero y then PInf else inf_of_sign y
  | NInf, Fin y => if is_zero y then NInf else neg (inf_of_sign y)
  | (PInf | NInf), (PInf | NInf) => NaN
  end.

(** [x >= 0] *)
Definition ge0 (a : num) : bool :=
  match a with
  | Fin q => (0 <=? Qnum q)%Z
  | PInf => true
  | NInf | NaN => false
  end.

(** Nearest integer to [q], ties away from zero: the digits that
    [Number.prototype.toFixed] prints. *)
Definition round_half_away (q : Q) : Z :=
  if (0 <=? Qnum q)%Z
  then Qfloor (q + (1 # 2))
  else (- Qfloor ((- q) + (1 # 2)))%Z.

Definition round2 (q : Q) : Q := Qred (inject_Z (round_half_away (q * 100)) / 100).

(** [parseFloat(x.toFixed(2))]: [toFixed] prints the two-decimal number
    nearest to the exact value of [x], and [parseFloat] reads the double
    nearest to what is printed.  From 1e21 on, [toFixed] prints the number
    as [ToString] does and [parseFloat] reads the same number back; NaN and
    the infinities print as their names. *)
Definition toFixed2 (a : num) : num :=
  match a with
  | Fin q => if Qle_bool (inject_Z (10 ^ 21)) (Qabs q) then Fin q else double (round2 q)
  | other => other
  end.

End Num.
Export Num.

(** ** JavaScript values *)

Inductive jsval : Type :=
| VUndef
| VNull
| VBool (b : bool)
| VNum (n : num)
| VArr (elems : list jsval)
| VObj (props : list (string * jsval)).

Inductive exn : Type :=
| TypeError
| SyntaxError
| NetworkError
| Error (msg : string).

Inductive result (A : Type) : Type :=
| Ret (a : A)
| Throw (e : exn).
Arguments Ret {A} a.
Arguments Throw {A} e.

Definition nullish (v : jsval) : bool :=
  match v with
  | VUndef | VNull => true
  | _ => false
  end.

(** ToBoolean *)
Definition truthy (v : jsval) : bool :=
  match v with
  | VUndef | VNull => false
  | VBool b => b
  | VNum (Fin q) => negb (is_zero q)
  | VNum NaN => false
  | VNum _ => true
  | VArr _ | VObj _ => true
  end.

(** [a || b] *)
Definition js_or (a b : jsval) : jsval := if truthy a then a else b.

Fixpoint lookup (k : string) (props : list (string * jsval)) : option jsval :=
  match props with
  | [] => None
  | (k', v) :: rest => if String.eqb k k' then Some v else lookup k rest
  end.

Definition has_key (k : string) (props : list (string * jsval)) : bool :=
  match lookup k props with
  | Some _ => true
  | None => false
  end.

(** [v.k] for the property names the script uses (none of them is a member
    of a built-in prototype). *)
Definition get_prop (v : jsval) (k : string) : result jsval :=
  match v with
  | VUndef | VNull => Throw TypeError
  | VObj props =>
      match lookup k props with
      | Some x => Ret x
      | None => Ret VUndef
      end
  | _ => Ret VUndef
  end.

(** [v[0]] *)
Definition get_index0 (v : jsval) : result jsval :=
  match v with
  | VUndef | VNull => Throw TypeError
  | VArr (x :: _) => Ret x
  | VObj props =>
      match lookup "0" props with
      | Some x => Ret x
      | None => Ret VUndef
      end
  | _ => Ret VUndef
  end.

(** [v?.k] *)
Definition get_opt (v : jsval) (k : string) : jsval :=
  match get_prop v k with
  | Ret x => x
  | Throw _ => VUndef
  end.

(** Whether [ToString(v)] (and so [ToPrimitive], [ToNumber]) throws: an
    object parsed from JSON whose own [toString] property shadows the
    inherited method has nothing callable to convert it. *)
Fixpoint ToString_throws (v : jsval) : bool :=
  match v with
  | VObj props => has_key "toString" props
  | VArr elems =>
      existsb (fun e => if nullish e then false else ToString_throws e) elems
  | _ => false
  end.

(** ToNumber, for a value whose conversion does not throw.  An array is
    converted through its [join]: the empty array reads as 0, a one-element
    array as its element's text, anything longer has a comma in it. *)
Fixpoint ToNumber_of (v : jsval) : num :=
  match v with
  | VUndef => NaN
  | VNull => zero
  | VBool b => if b then Fin 1 else zero
  | VNum n => n
  | VObj _ => NaN
  | VArr [] => zero
  | VArr [e] =>
      match e with
      | VUndef | VNull => zero
      | VNum n => n
      | VArr _ => ToNumber_of e
      | VBool _ | VObj _ => NaN
      end
  | VArr _ => NaN
  end.

Definition ToNumber (v : jsval) : result num :=
  if ToString_throws v then Throw TypeError else Ret (ToNumber_of v).

(** Whether [v.toLocaleString(...)] throws. *)
Fixpoint toLocaleString_throws (v : jsval) : bool :=
  match v with
  | VUndef | VNull => true
  | VBool _ | VNum _ => false
  | VObj props => has_key "toLocaleString" props || has_key "toString" props
  | VArr elems =>
      existsb (fun e => if nullish e then false else toLocaleString_throws e) elems
  end.

(** ** The environment *)

(** What the local-storage slot holds, seen through [JSON.parse]. *)
Inductive stored : Type :=
| EmptyText                (* the empty string *)
| JsonText (v : jsval)     (* text that JSON.parse reads as [v] *)
| Garbled.                 (* non-empty text that JSON.parse rejects *)

(** The value [JSON.parse] reads back from [JSON.stringify(v)]: numbers that
    are not finite and array holes become [null], undefined properties are
    dropped. *)
Fixpoint json_of (v : jsval) : jsval :=
  match v with
  | VUndef => VNull
  | VNum (Fin q) => VNum (Fin q)
  | VNum _ => VNull
  | VArr elems => VArr (map json_of elems)
  | VObj props =>
      VObj ((fix props_of (ps : list (string * jsval)) : list (string * jsval) :=
               match ps with
               | [] => []
               | (k, VUndef) :: rest => props_of rest
               | (k, x) :: rest => (k, json_of x) :: props_of rest
               end) props)
  | other => other
  end.

(** The text [localStorage.setItem] keeps for [JSON.stringify(v)]; for
    [undefined] that is the word itself, which is no JSON. *)
Definition JSON_stringify (v : jsval) : stored :=
  match v with
  | VUndef => Garbled
  | _ => JsonText (json_of v)
  end.

Definition JSON_parse (t : stored) : result jsval :=
  match t with
  | JsonText v => Ret v
  | EmptyText | Garbled => Throw SyntaxError
  end.

(** The outcome of one [fetch]: the promise rejects, or it resolves to a
    response with its [ok] flag and what [response.json()] resolves to
    ([None] when the body is not JSON). *)
Inductive response : Type :=
| Rejected
| Response (ok : bool) (body : option jsval).

Record world : Type := mkWorld {
  clock : nat -> Z;                (* n-th reading of [new Date()], in ms since the epoch *)
  Math_random : nat -> Q;          (* n-th draw *)
  fetch_price : nat -> response;   (* n-th GET of ...?modules=price *)
  fetch_stats : nat -> response    (* n-th GET of ...?modules=defaultKeyStatistics,financialData *)
}.

(** Symbolic [textContent] of the page's elements. *)
Inductive text : Type :=
| Localized (v : jsval)                     (* v.toLocaleString('en-IN', two digits) *)
| SignedLocalized (v : jsval)               (* the same after a '+' for v >= 0 *)
| ArrowPercent (v : jsval)                  (* arrow, |v| with two digits, '%' *)
| TimeString (t : Z) (lastTradingDay : bool).  (* the time, then ' (Last Trading Day)' *)

Record state : Type := mkState {
  priceHistory : list jsval;
  maxHistoryLength : nat;
  currentData : jsval;
  localStorage : option stored;      (* the slot 'lastTradingDayData' *)
  dom : list (string * text);        (* textContent writes, newest first *)
  clockReads : nat;
  randomDraws : nat;
  priceRequests : nat;
  statsRequests : nat;
  unhandledRejections : list exn     (* rejections of promises nobody awaits *)
}.

Definition quote (price change changePercent high low open close : jsval) : jsval :=
  VObj [("price", price); ("change", change); ("changePercent", changePercent);
        ("high", high); ("low", low); ("open", open); ("close", close)].

Definition lastTradingDayQuote
  (price change changePercent high low open close : jsval) : jsval :=
  VObj [("price", price); ("change", change); ("changePercent", changePercent);
        ("high", high); ("low", low); ("open", open); ("close", close);
        ("isLastTradingDay", VBool true)].

Definition qnum (q : Q) : jsval := VNum (double q).

(** The script's globals when the page loads. *)
Definition initial_state : state :=
  {| priceHistory := [];
     maxHistoryLength := 20;
     currentData := quote (qnum 0) (qnum 0) (qnum 0) (qnum 0) (qnum 0) (qnum 0) (qnum 0);
     localStorage := None;
     dom := [];
     clockReads := 0;
     randomDraws := 0;
     priceRequests := 0;
     statsRequests := 0;
     unhandledRejections := [] |}.

Definition set_priceHistory (h : list jsval) (s : state) : state :=
  mkState h (maxHistoryLength s) (currentData s) (localStorage s) (dom s)
          (clockReads s) (randomDraws s) (priceRequests s) (statsRequests s)
          (unhandledRejections s).

Definition set_currentData (v : jsval) (s : state) : state :=
  mkState (priceHistory s) (maxHistoryLength s) v (localStorage s) (dom s)
          (clockReads s) (randomDraws s) (priceRequests s) (statsRequests s)
          (unhandledRejections s).

Definition set_localStorage (t : option stored) (s : state) : state :=
  mkState (priceHistory s) (maxHistoryLength s) (currentData s) t (dom s)
          (clockReads s) (randomDraws s) (priceRequests s) (statsRequests s)
          (unhandledRejections s).

Definition set_dom (d : list (string * text)) (s : state) : state :=
  mkState (priceHistory s) (maxHistoryLength s) (currentData s) (localStorage s) d
          (clockReads s) (randomDraws s) (priceRequests s) (statsRequests s)
          (unhandledRejections s).

Definition set_clockReads (n : nat) (s : state) : state :=
  mkState (priceHistory s) (maxHistoryLength s) (currentData s) (localStorage s) (dom s)
          n (randomDraws s) (priceRequests s) (statsRequests s)
          (unhandledRejections s).

Definition set_randomDraws (n : nat) (s : state) : state :=
  mkState (priceHistory s) (maxHistoryLength s) (currentData s) (localStorage s) (dom s)
          (clockReads s) n (priceRequests s) (statsRequests s)
          (unhandledRejections s).

Definition set_priceRequests (n : nat) (s : state) : state :=
  mkState (priceHistory s) (maxHistoryLength s) (currentData s) (localStorage s) (dom s)
          (clockReads s) (randomDraws s) n (statsRequests s)
          (unhandledRejections s).

Definition set_statsRequests (n : nat) (s : state) : state :=
  mkState (priceHistory s) (maxHistoryLength s) (currentData s) (localStorage s) (dom s)
          (clockReads s) (randomDraws s) (priceRequests s) n
          (unhandledRejections s).

Definition set_unhandledRejections (l : list exn) (s : state) : state :=
  mkState (priceHistory s) (maxHistoryLength s) (currentData s) (localStorage s) (dom s)
          (clockReads s) (randomDraws s) (priceRequests s) (statsRequests s) l.

(** ** Computations: state passing with exceptions *)

Definition M (A : Type) : Type := world -> state -> result A * state.

Definition ret {A} (a : A) : M A := fun _ s => (Ret a, s).

Definition throw {A} (e : exn) : M A := fun _ s => (Throw e, s).

Definition bind {A B} (m : M A) (k : A -> M B) : M B :=
  fun w s =>
    match m w s with
    | (Ret a, s') => k a w s'
    | (Throw e, s') => (Throw e, s')
    end.

Notation "x <- m ;; k" := (bind m (fun x => k))
  (at level 61, m at next level, right associativity).
Notation "m ;;; k" := (bind m (fun _ => k))
  (at level 61, right associativity).

(** [try { m } catch (error) { h }] *)
Definition try_catch {A} (m : M A) (h : exn -> M A) : M A :=
  fun w s =>
    match m w s with
    | (Ret a, s') => (Ret a, s')
    | (Throw e, s') => h e w s'
    end.

Definition lift {A} (r : result A) : M A := fun _ s => (r, s).

Definition modify (f : state -> state) : M unit := fun _ s => (Ret tt, f s).

Definition gets {A} (f : state -> A) : M A := fun _ s => (Ret (f s), s).

(** A call of an async function whose promise is dropped: it runs, and a
    rejection reaches nobody. *)
Definition not_awaited (m : M unit) : M unit :=
  fun w s =>
    match m w s with
    | (Ret _, s') => (Ret tt, s')
    | (Throw e, s') =>
        (Ret tt, set_unhandledRejections (unhandledRejections s' ++ [e]) s')
    end.

Definition new_Date : M Z :=
  fun w s => (Ret (clock w (clockReads s)), set_clockReads (S (clockReads s)) s).

Definition random : M num :=
  fun w s =>
    (Ret (double (Math_random w (randomDraws s))), set_randomDraws (S (randomDraws s)) s).

Definition setText (id : string) (t : text) : M unit :=
  modify (fun s => set_dom ((id, t) :: dom s) s).

(** ** The script *)

(** The wall-clock fields of [now] in Asia/Kolkata (UTC+05:30, no daylight
    saving), which the script obtains by formatting [now] for that time zone
    and reading the text back as a date. *)
Record Date : Type := mkDate {
  getDay : Z;       (* 0 is Sunday *)
  getHours : Z;
  getMinutes : Z
}.

Definition msPerMinute : Z := 60000.
Definition msPerHour : Z := 3600000.
Definition msPerDay : Z := 86400000.
Definition istOffset : Z := 19800000.

Definition toIST (now : Z) : Date :=
  let wall := now + istOffset in
  {| getDay := (wall / msPerDay + 4) mod 7;      (* the epoch was a Thursday *)
     getHours := (wall mod msPerDay) / msPerHour;
     getMinutes := (wall mod msPerHour) / msPerMinute |}.

Definition isMarketOpenAt (now : Z) : bool :=
  let istTime := toIST now in
  let dayOfWeek := getDay istTime in
  let hours := getHours istTime in
  let minutes := getMinutes istTime in
  let timeInMinutes := hours * 60 + minutes in
  let isWeekday := (1 <=? dayOfWeek) && (dayOfWeek <=? 5) in
  let marketOpenTime := 9 * 60 + 15 in
  let marketCloseTime := 15 * 60 + 30 in
  isWeekday && (marketOpenTime <=? timeInMinutes) && (timeInMinutes <? marketCloseTime).

Definition isMarketOpen : M bool :=
  now <- new_Date ;;
  ret (isMarketOpenAt now).

(** [priceHistory.push(price)], then one [shift()] when the array has grown
    past [maxHistoryLength]. *)
Definition push_shift (cap : nat) (history : list jsval) (price : jsval) : list jsval :=
  let pushed := history ++ [price] in
  if (cap <? List.length pushed)%nat then tl pushed else pushed.

Definition addToHistory (price : jsval) : M unit :=
  modify (fun s => set_priceHistory (push_shift (maxHistoryLength s) (priceHistory s) price) s).

(** The chart is redrawn from [priceHistory] by the chart library; nothing
    of the modelled state changes. *)
Definition updateChart : M unit := ret tt.

(** [data.field.toLocaleString('en-IN', {...})] *)
Definition localized (data : jsval) (field : string) : M jsval :=
  v <- lift (get_prop data field) ;;
  if toLocaleString_throws v then throw TypeError else ret v.

(** [data.field >= 0] *)
Definition nonNegative (data : jsval) (field : string) : M bool :=
  v <- lift (get_prop data field) ;;
  n <- lift (ToNumber v) ;;
  ret (ge0 n).

(** The common body of [updateUI] and [updateUIWithLastTradingDay], which
    differ in the suffix of the time stamp only. *)
Definition render (lastTradingDay : bool) (data : jsval) : M unit :=
  modify (set_currentData data) ;;;
  price <- localized data "price" ;;
  setText "price" (Localized price) ;;;
  _ <- nonNegative data "change" ;;
  change <- localized data "change" ;;
  setText "changeValue" (SignedLocalized change) ;;;
  _ <- nonNegative data "changePercent" ;;
  changePercent <- lift (get_prop data "changePercent") ;;
  _ <- lift (ToNumber changePercent) ;;                (* Math.abs(...).toFixed(2) *)
  setText "changePercent" (ArrowPercent changePercent) ;;;
  _ <- nonNegative data "changePercent" ;;             (* the colour class *)
  high <- localized data "high" ;;
  setText "high" (Localized high) ;;;
  low <- localized data "low" ;;
  setText "low" (Localized low) ;;;
  open <- localized data "open" ;;
  setText "open" (Localized open) ;;;
  close <- localized data "close" ;;
  setText "close" (Localized close) ;;;
  now <- new_Date ;;
  setText "lastUpdated" (TimeString now lastTradingDay) ;;;
  price' <- lift (get_prop data "price") ;;
  addToHistory price' ;;;
  updateChart.

Definition updateUIWithLastTradingDay (data : jsval) : M unit := render true data.

Definition updateUI (data : jsval) : M unit := render false data.

Definition fetch (endpoint : world -> nat -> response)
  (count : state -> nat) (set_count : nat -> state -> state) : M (bool * option jsval) :=
  fun w s =>
    let s' := set_count (S (count s)) s in
    match endpoint w (count s) with
    | Rejected => (Throw NetworkError, s')
    | Response ok body => (Ret (ok, body), s')
    end.

(** [await response.json()] *)
Definition json (body : option jsval) : M jsval :=
  match body with
  | Some v => ret v
  | None => throw SyntaxError
  end.

(** [result.quoteSummary.result[0]] *)
Definition first_result (payload : jsval) : result jsval :=
  match get_prop payload "quoteSummary" with
  | Ret quoteSummary =>
      match get_prop quoteSummary "result" with
      | Ret results => get_index0 results
      | Throw e => Throw e
      end
  | Throw e => Throw e
  end.

(** [priceData.field.raw] *)
Definition raw_of (priceData : jsval) (field : string) : M jsval :=
  wrapped <- lift (get_prop priceData field) ;;
  lift (get_prop wrapped "raw").

Definition tryFetchFromFinance : M jsval :=
  try_catch
    (r <- fetch fetch_price priceRequests set_priceRequests ;;
     let (ok, body) := r in
     if ok then
       result <- json body ;;
       first <- lift (first_result result) ;;
       priceData <- lift (get_prop first "price") ;;
       price <- raw_of priceData "regularMarketPrice" ;;
       change <- raw_of priceData "regularMarketChange" ;;
       changePercent <- raw_of priceData "regularMarketChangePercent" ;;
       high <- raw_of priceData "regularMarketDayHigh" ;;
       low <- raw_of priceData "regularMarketDayLow" ;;
       open <- raw_of priceData "regularMarketOpen" ;;
       close <- raw_of priceData "regularMarketPreviousClose" ;;
       ret (quote price change changePercent high low open close)
     else ret VNull)
    (fun _ => ret VNull).

(** [data.module?.field?.raw || fallback] *)
Definition raw_or (data : jsval) (module field : string) (fallback : Q) : M jsval :=
  m <- lift (get_prop data module) ;;
  ret (js_or (get_opt (get_opt m field) "raw") (qnum fallback)).

Definition fetchLastTradingDayFromAPI : M jsval :=
  try_catch
    (r <- fetch fetch_stats statsRequests set_statsRequests ;;
     let (ok, body) := r in
     if ok then
       result <- json body ;;
       data <- lift (first_result result) ;;
       price <- raw_or data "financialData" "regularMarketPrice" 24250 ;;
       change <- raw_or data "financialData" "regularMarketChange" 0 ;;
       changePercent <- raw_or data "financialData" "regularMarketChangePercent" 0 ;;
       high <- raw_or data "defaultKeyStatistics" "fiftyTwoWeekHigh" 25000 ;;
       low <- raw_or data "defaultKeyStatistics" "fiftyTwoWeekLow" 23000 ;;
       open <- raw_or data "financialData" "regularMarketOpen" 24000 ;;
       close <- raw_or data "financialData" "regularMarketPreviousClose" 24250 ;;
       let priceData := lastTradingDayQuote price change changePercent high low open close in
       modify (set_localStorage (Some (JSON_stringify priceData))) ;;;
       ret priceData
     else ret VNull)
    (fun _ => ret VNull).

Definition getDefaultLastTradingDayData : jsval :=
  lastTradingDayQuote (qnum 24280.50) (qnum 150.25) (qnum 0.62)
                      (qnum 24450.75) (qnum 23950.00) (qnum 24100.00) (qnum 24280.50).

(** [if (storedData)] on what [localStorage.getItem] returned *)
Definition hasText (slot : option stored) : bool :=
  match slot with
  | None | Some EmptyText => false
  | Some _ => true
  end.

Definition getLastTradingDayData : M jsval :=
  try_catch
    (storedData <- gets localStorage ;;
     match storedData with
     | Some text =>
         if hasText storedData
         then lift (JSON_parse text)
         else fetchLastTradingDayFromAPI
     | None => fetchLastTradingDayFromAPI
     end)
    (fun _ => ret getDefaultLastTradingDayData).

(** [basePrice + variation].  With a number or a boolean on the left the sum
    is a number.  An array or an object makes it a string (or fails to
    convert), and the first [currentPrice.toFixed(2)] then is a call of
    something that is not a function; nothing of the state changes in
    between. *)
Definition plus_variation (basePrice : jsval) (variation : num) : M num :=
  match basePrice with
  | VNum n => ret (add n variation)
  | VBool b => ret (add (if b then Fin 1 else zero) variation)
  | VNull => ret variation
  | VUndef => ret NaN
  | VArr _ | VObj _ => throw TypeError
  end.

Definition generateMockData : M unit :=
  open <- isMarketOpen ;;
  if negb open then
    lastTradingData <- getLastTradingDayData ;;
    updateUIWithLastTradingDay lastTradingData
  else
    data <- gets currentData ;;
    lastPrice <- lift (get_prop data "price") ;;
    let basePrice := js_or lastPrice (qnum 24250) in
    r <- random ;;
    let variation := mul (sub r (Fin 0.5)) (Fin 200) in
    currentPrice <- plus_variation basePrice variation ;;
    lastClose <- lift (get_prop data "close") ;;
    let previousClose := js_or lastClose basePrice in
    previousCloseNumber <- lift (ToNumber previousClose) ;;
    let change := sub currentPrice previousCloseNumber in
    let changePercent := mul (div change previousCloseNumber) (Fin 100) in
    r_high <- random ;;
    r_low <- random ;;
    r_open <- random ;;
    let newData :=
      quote (VNum (toFixed2 currentPrice))
            (VNum (toFixed2 change))
            (VNum (toFixed2 changePercent))
            (VNum (toFixed2 (add (add currentPrice (Fin 100)) (mul r_high (Fin 50)))))
            (VNum (toFixed2 (sub (sub currentPrice (Fin 100)) (mul r_low (Fin 50)))))
            (VNum (toFixed2 (add currentPrice (mul (sub r_open (Fin 0.5)) (Fin 150)))))
            previousClose in
    updateUI newData.

Definition fetchNiftyPrice : M unit :=
  try_catch
    (open <- isMarketOpen ;;
     if open then
       data <- tryFetchFromFinance ;;
       if truthy data
       then updateUI data
       else throw (Error "Live data fetch failed")
     else
       lastTradingData <- getLastTradingDayData ;;
       updateUIWithLastTradingDay lastTradingData)
    (fun _ =>
       open <- isMarketOpen ;;
       if negb open then
         lastTradingData <- getLastTradingDayData ;;
         updateUIWithLastTradingDay lastTradingData
       else
         not_awaited generateMockData).

(** A run of appends to the price history, in order. *)
Fixpoint appendAll (prices : list jsval) : M unit :=
  match prices with
  | [] => ret tt
  | price :: rest => addToHistory price ;;; appendAll rest
  end.

(** Invocations of [fetchNiftyPrice] one after another, as the timers and the
    refresh button make them: nobody awaits the promise, and each invocation
    is taken to have run to its end before the next one starts. *)
Fixpoint ticks (n : nat) : M unit :=
  match n with
  | O => ret tt
  | S k => not_awaited fetchNiftyPrice ;;; ticks k
  end.

(** * Vocabulary of the specification and sample inputs *)

(** The specification's reading of a time stamp: the weekday and the minutes
    since midnight, on the Asia/Kolkata wall clock. *)
Definition istWeekday (now : Z) : Z := ((now + istOffset) / msPerDay + 4) mod 7.

Definition istMinuteOfDay (now : Z) : Z := ((now + istOffset) mod msPerDay) / msPerMinute.

(** Tuesday 2 January 2024, 09:15:00 in Asia/Kolkata. *)
Definition tuesday_0915 : Z := 1704167100000.

(** Sunday 7 January 2024, 09:15:00 in Asia/Kolkata. *)
Definition sunday_0915 : Z := tuesday_0915 + 5 * msPerDay.

(** The history after a run of appends, for a capacity [cap]. *)
Definition appended (cap : nat) (history prices : list jsval) : list jsval :=
  fold_left (push_shift cap) prices history.

Definition prices_1_to_25 : list jsval :=
  map (fun n => qnum (inject_Z (Z.of_nat n))) (seq 1 25).

(** A remote request that brings nothing back: the promise rejects or the
    response is not [ok]. *)
Definition succeeded (r : response) : bool :=
  match r with
  | Response true _ => true
  | _ => false
  end.

(** The specification's CachedRecord: the seven numeric fields are there. *)
Definition isNumber (v : jsval) : bool :=
  match v with
  | VNum (Fin _) => true
  | _ => false
  end.

Definition quoteFields : list string :=
  ["price"; "change"; "changePercent"; "high"; "low"; "open"; "close"].

Definition isCachedRecord (v : jsval) : bool :=
  forallb (fun field =>
             match get_prop v field with
             | Ret x => isNumber x
             | Throw _ => false
             end) quoteFields.

Definition asked_stats (s : state) : state :=
  set_statsRequests (S (statsRequests s)) s.

Definition asked_price (s : state) : state :=
  set_priceRequests (S (priceRequests s)) s.

Definition world_remote_down (now : Z) : world :=
  {| clock := fun _ => now;
     Math_random := fun _ => (3 # 4)%Q;
     fetch_price := fun _ => Rejected;
     fetch_stats := fun _ => Response false None |}.

(** Where the tick leaves the state: two readings of the clock, two
    requests, [currentData] overwritten by [null]. *)
Definition after_closed_tick (s : state) : state :=
  set_currentData VNull
    (asked_stats
       (set_clockReads (S (S (clockReads s)))
          (set_currentData VNull (asked_stats s)))).

Definition state_with_slot (t : stored) : state := set_localStorage (Some t) initial_state.

(** [data.module?.field?.raw], for [data] that is neither [null] nor
    [undefined]. *)
Definition extracted (data : jsval) (module field : string) : jsval :=
  get_opt (get_opt (get_opt data module) field) "raw".

(** The documented defaults: the field of the record, where the payload
    keeps it, and the constant that stands in for it. *)
Definition historicalFields : list (string * (string * string * Q)) :=
  [("price", ("financialData", "regularMarketPrice", 24250%Q));
   ("change", ("financialData", "regularMarketChange", 0%Q));
   ("changePercent", ("financialData", "regularMarketChangePercent", 0%Q));
   ("high", ("defaultKeyStatistics", "fiftyTwoWeekHigh", 25000%Q));
   ("low", ("defaultKeyStatistics", "fiftyTwoWeekLow", 23000%Q));
   ("open", ("financialData", "regularMarketOpen", 24000%Q));
   ("close", ("financialData", "regularMarketPreviousClose", 24250%Q))].

Definition historicalRecord (data : jsval) : jsval :=
  lastTradingDayQuote
    (js_or (extracted data "financialData" "regularMarketPrice") (qnum 24250))
    (js_or (extracted data "financialData" "regularMarketChange") (qnum 0))
    (js_or (extracted data "financialData" "regularMarketChangePercent") (qnum 0))
    (js_or (extracted data "defaultKeyStatistics" "fiftyTwoWeekHigh") (qnum 25000))
    (js_or (extracted data "defaultKeyStatistics" "fiftyTwoWeekLow") (qnum 23000))
    (js_or (extracted data "financialData" "regularMarketOpen") (qnum 24000))
    (js_or (extracted data "financialData" "regularMarketPreviousClose") (qnum 24250)).

(** A payload of the remote lookup that carries [regularMarketPrice] and
    nothing else. *)
Definition payload_only_price (v : jsval) : jsval :=
  VObj [("quoteSummary",
         VObj [("result",
                VArr [VObj [("financialData",
                             VObj [("regularMarketPrice", VObj [("raw", v)])])]])])].

Definition world_stats (body : jsval) : world :=
  {| clock := fun _ => sunday_0915;
     Math_random := fun _ => (3 # 4)%Q;
     fetch_price := fun _ => Rejected;
     fetch_stats := fun _ => Response true (Some body) |}.

(** The record built from a payload that carries only a truthy price. *)
Definition recordOfPrice (v : jsval) : jsval :=
  lastTradingDayQuote v (qnum 0) (qnum 0) (qnum 25000) (qnum 23000) (qnum 24000) (qnum 24250).

Definition liveFields : list string :=
  ["regularMarketPrice"; "regularMarketChange"; "regularMarketChangePercent";
   "regularMarketDayHigh"; "regularMarketDayLow"; "regularMarketOpen";
   "regularMarketPreviousClose"].

(** [priceData.field.raw], when both steps of the access go through. *)
Definition raw_field (priceData : jsval) (field : string) : jsval :=
  get_opt (get_opt priceData field) "raw".

Definition liveQuote (priceData : jsval) : jsval :=
  quote (raw_field priceData "regularMarketPrice")
        (raw_field priceData "regularMarketChange")
        (raw_field priceData "regularMarketChangePercent")
        (raw_field priceData "regularMarketDayHigh")
        (raw_field priceData "regularMarketDayLow")
        (raw_field priceData "regularMarketOpen")
        (raw_field priceData "regularMarketPreviousClose").

(** A live payload whose [regularMarketPrice] has no [raw] inside. *)
Definition payload_price_without_raw : jsval :=
  VObj [("quoteSummary",
         VObj [("result",
                VArr [VObj [("price",
                  VObj [("regularMarketPrice", VObj []);
                        ("regularMarketChange", VObj [("raw", qnum 50)]);
                        ("regularMarketChangePercent", VObj [("raw", qnum 0.21)]);
                        ("regularMarketDayHigh", VObj [("raw", qnum 24400)]);
                        ("regularMarketDayLow", VObj [("raw", qnum 24200)]);
                        ("regularMarketOpen", VObj [("raw", qnum 24260)]);
                        ("regularMarketPreviousClose", VObj [("raw", qnum 24250)])])]])])].

Definition world_price (now : Z) (body : jsval) : world :=
  {| clock := fun _ => now;
     Math_random := fun _ => (3 # 4)%Q;
     fetch_price := fun _ => Response true (Some body);
     fetch_stats := fun _ => Rejected |}.

(** The number a binary64 float of the machine is. *)
Definition of_float (f : float) : num :=
  match Prim2SF f with
  | S754_zero _ => Fin 0
  | S754_infinity false => PInf
  | S754_infinity true => NInf
  | S754_nan => NaN
  | S754_finite sign m e =>
      let v := (inject_Z (Zpos m) * pow2 e)%Q in
      Fin (Qred (if sign then - v else v))
  end.

Definition same_number (a b : num) : bool :=
  match a, b with
  | Fin x, Fin y => Qeq_bool x y
  | PInf, PInf | NInf, NInf | NaN, NaN => true
  | _, _ => false
  end.

(** The float [n / d * 2^e], of small integers [n] and [d]. *)
Definition sample (n d e : Z) : float :=
  let q := PrimFloat.div (PrimFloat.of_uint63 (Uint63.of_Z (Z.abs n)))
                         (PrimFloat.of_uint63 (Uint63.of_Z d)) in
  let q := if (n <? 0)%Z then PrimFloat.opp q else q in
  PrimFloat.ldshiftexp q (Uint63.of_Z (e + 2101)).

(** Numbers of the script, numbers that are not binary fractions, a
    subnormal one and some close to the largest double. *)
Definition binary64_samples : list float :=
  [sample 0 1 0; sample 24250 1 0; sample 3 4 0; sample 1 2 0; sample 200 1 0;
   sample 100 1 0; sample 2430015 100 0; sample 1 3 0; sample (-7) 3 0;
   sample 2428050 100 0; sample 1 10 0; sample (-1) 1000000 0;
   sample 5 3 (-1070); sample 3 1 1022; sample (-5) 7 900; sample 1 3 (-600)].

(** The four operations of the model give what the machine gives. *)
Definition agree (x y : float) : bool :=
  same_number (add (of_float x) (of_float y)) (of_float (PrimFloat.add x y))
  && same_number (sub (of_float x) (of_float y)) (of_float (PrimFloat.sub x y))
  && same_number (mul (of_float x) (of_float y)) (of_float (PrimFloat.mul x y))
  && same_number (div (of_float x) (of_float y)) (of_float (PrimFloat.div x y)).

(** [currentData.price || 24250] and [currentData.close || basePrice], for
    a last quote whose price and close are the numbers [p] and [c]. *)
Definition mockBasePrice (p : Q) : jsval := js_or (qnum p) (qnum 24250).

Definition mockPreviousClose (p c : Q) : jsval := js_or (qnum c) (mockBasePrice p).

(** The quote that mock generation builds from a base price, a previous
    close and four draws. *)
Definition mockQuoteOf (basePrice previousClose r r_high r_low r_open : num) : jsval :=
  let currentPrice := add basePrice (mul (sub r (Fin 0.5)) (Fin 200)) in
  let change := sub currentPrice previousClose in
  let changePercent := mul (div change previousClose) (Fin 100) in
  quote (VNum (toFixed2 currentPrice))
        (VNum (toFixed2 change))
        (VNum (toFixed2 changePercent))
        (VNum (toFixed2 (add (add currentPrice (Fin 100)) (mul r_high (Fin 50)))))
        (VNum (toFixed2 (sub (sub currentPrice (Fin 100)) (mul r_low (Fin 50)))))
        (VNum (toFixed2 (add currentPrice (mul (sub r_open (Fin 0.5)) (Fin 150)))))
        (VNum previousClose).

(** The same from a numeric last price [p] and last close [c] and the four
    draws of the world. *)
Definition mockQuote (p c r r_high r_low r_open : Q) : jsval :=
  mockQuoteOf (ToNumber_of (mockBasePrice p)) (ToNumber_of (mockPreviousClose p c))
              (double r) (double r_high) (double r_low) (double r_open).

(** The two identities of a quote, each up to [tolerance]. *)
Definition consistentWithin (tolerance : Q) (data : jsval) : Prop :=
  exists price change changePercent previousClose,
    get_prop data "price" = Ret (VNum (Fin price))
    /\ get_prop data "change" = Ret (VNum (Fin change))
    /\ get_prop data "changePercent" = Ret (VNum (Fin changePercent))
    /\ get_prop data "close" = Ret (VNum (Fin previousClose))
    /\ (Qabs (change - (price - previousClose)) <= tolerance)%Q
    /\ (Qabs (changePercent - change / previousClose * 100) <= tolerance)%Q.

(** ** Frames, invariants and outcomes *)

(** Every run of [m] in the world [w] relates the state it starts from to
    the state it ends in. *)
Definition keeps {A} (R : state -> state -> Prop) (w : world) (m : M A) : Prop :=
  forall s, R s (snd (m w s)).

(** [m] neither reads nor changes the state and asks the world nothing. *)
Definition stateless {A} (m : M A) : Prop :=
  exists r, forall (w : world) (s : state), m w s = (r, s).

(** The part [f] of the state is as it was. *)
Definition same {B} (f : state -> B) (s s' : state) : Prop := f s' = f s.

(** The invariant [I] is not lost. *)
Definition preserved (I : state -> Prop) (s s' : state) : Prop := I s -> I s'.

Definition historyBounded (s : state) : Prop :=
  (List.length (priceHistory s) <= maxHistoryLength s)%nat.

(** The checks [updateUI] makes on its way, in the order it makes them:
    [data] can be read, and each field it formats or compares converts. *)
Definition renderable (data : jsval) : bool :=
  negb (nullish data)
  && negb (toLocaleString_throws (get_opt data "price"))
  && negb (ToString_throws (get_opt data "change"))
  && negb (toLocaleString_throws (get_opt data "change"))
  && negb (ToString_throws (get_opt data "changePercent"))
  && negb (toLocaleString_throws (get_opt data "high"))
  && negb (toLocaleString_throws (get_opt data "low"))
  && negb (toLocaleString_throws (get_opt data "open"))
  && negb (toLocaleString_throws (get_opt data "close")).

(** The state after [data] has been shown in full at the time [now]. *)
Definition rendered (lastTradingDay : bool) (data : jsval) (now : Z) (s : state) : state :=
  set_priceHistory
    (push_shift (maxHistoryLength s) (priceHistory s) (get_opt data "price"))
    (set_dom
       (("lastUpdated", TimeString now lastTradingDay)
          :: ("close", Localized (get_opt data "close"))
          :: ("open", Localized (get_opt data "open"))
          :: ("low", Localized (get_opt data "low"))
          :: ("high", Localized (get_opt data "high"))
          :: ("changePercent", ArrowPercent (get_opt data "changePercent"))
          :: ("changeValue", SignedLocalized (get_opt data "change"))
          :: ("price", Localized (get_opt data "price"))
          :: dom s)
       (set_clockReads (S (clockReads s)) (set_currentData data s))).


(** The capacity is as it was and the bound, if it held, holds. *)
Definition capacityKept (s s' : state) : Prop :=
  maxHistoryLength s' = maxHistoryLength s /\ (historyBounded s -> historyBounded s').


(** A state in which the slot holds the cached text [t]. *)
Definition with_slot (t : stored) (s : state) : state := set_localStorage (Some t) s.

(** A live payload with all seven entries, and its [price] object. *)
Definition live_priceData : jsval :=
  VObj [("regularMarketPrice", VObj [("raw", qnum 24310.35)]);
        ("regularMarketChange", VObj [("raw", qnum 60.35)]);
        ("regularMarketChangePercent", VObj [("raw", qnum 0.25)]);
        ("regularMarketDayHigh", VObj [("raw", qnum 24400)]);
        ("regularMarketDayLow", VObj [("raw", qnum 24200)]);
        ("regularMarketOpen", VObj [("raw", qnum 24260)]);
        ("regularMarketPreviousClose", VObj [("raw", qnum 24250)])].

Definition payload_live_full : jsval :=
  VObj [("quoteSummary", VObj [("result", VArr [VObj [("price", live_priceData)]])])].

(** * Properties *)

(** ** Market calendar *)

Lemma timeInMinutes_minuteOfDay (now : Z) :
  getHours (toIST now) * 60 + getMinutes (toIST now) = istMinuteOfDay now.
Proof.
  unfold toIST, istMinuteOfDay, msPerDay, msPerHour, msPerMinute; cbn [getHours getMinutes].
  set (wall := now + istOffset).
  assert (Hdiv : (3600000 | 86400000)) by (exists 24; reflexivity).
  rewrite <- (Z.mod_mod_divide wall 86400000 3600000 Hdiv).
  set (d := wall mod 86400000).
  rewrite (Z.div_mod d 3600000) at 3 by lia.
  replace (3600000 * (d / 3600000) + d mod 3600000)
    with (d / 3600000 * 60 * 60000 + d mod 3600000) by lia.
  rewrite Z.div_add_l by lia.
  reflexivity.
Qed.

Lemma isMarketOpenAt_fields (now : Z) :
  isMarketOpenAt now = true <->
  (1 <= getDay (toIST now) <= 5) /\
  (555 <= getHours (toIST now) * 60 + getMinutes (toIST now) < 930).
Proof.
  unfold isMarketOpenAt.
  rewrite !andb_true_iff, !Z.leb_le, Z.ltb_lt.
  change (9 * 60 + 15) with 555. change (15 * 60 + 30) with 930.
  tauto.
Qed.

(** C6. For every time stamp, [isMarketOpen] answers true exactly when the
    weekday on the Asia/Kolkata wall clock is Monday to Friday and the
    minutes since midnight lie in [555, 930): so it is true at 09:15:00 and
    false at 15:30:00 of a Tuesday, and false at any time of a Saturday or a
    Sunday. *)
Theorem isMarketOpen_iff_weekday_window :
  (forall now : Z,
      isMarketOpenAt now = true <->
      (1 <= istWeekday now <= 5) /\ (555 <= istMinuteOfDay now < 930))
  /\ isMarketOpenAt tuesday_0915 = true
  /\ isMarketOpenAt (tuesday_0915 - 1) = false
  /\ isMarketOpenAt (tuesday_0915 + 375 * msPerMinute) = false
  /\ isMarketOpenAt (tuesday_0915 + 375 * msPerMinute - 1) = true
  /\ (forall now : Z,
         istWeekday now = 6 \/ istWeekday now = 0 -> isMarketOpenAt now = false).
Proof.
  assert (Hiff : forall now : Z,
             isMarketOpenAt now = true <->
             (1 <= istWeekday now <= 5) /\ (555 <= istMinuteOfDay now < 930)).
  { intros now. rewrite isMarketOpenAt_fields, timeInMinutes_minuteOfDay.
    reflexivity. }
  split; [exact Hiff|].
  repeat split; try reflexivity.
  intros now Hweekend.
  destruct (isMarketOpenAt now) eqn:Hopen; [|reflexivity].
  apply Hiff in Hopen. lia.
Qed.

(** ** Price history *)

Section History.

Variable cap : nat.

Lemma push_shift_length (history : list jsval) (price : jsval) :
  (List.length history <= cap)%nat ->
  (List.length (push_shift cap history price) <= cap)%nat.
Proof.
  intros Hlen. unfold push_shift.
  destruct (Nat.ltb_spec cap (List.length (history ++ [price]))) as [Hover|Hfits].
  - rewrite length_app in Hover. cbn in Hover.
    destruct history as [|oldest rest]; cbn in *.
    + lia.
    + rewrite length_app. cbn. lia.
  - exact Hfits.
Qed.

Lemma appended_keeps_last (prices history : list jsval) :
  (List.length history <= cap)%nat ->
  (List.length (appended cap history prices) <= cap)%nat /\
  appended cap history prices =
    skipn (List.length history + List.length prices - cap) (history ++ prices).
Proof.
  revert history.
  induction prices as [|price rest IH]; intros history Hlen; cbn [appended fold_left].
  - rewrite app_nil_r. cbn [List.length]. split; [exact Hlen|].
    replace (List.length history + 0 - cap)%nat with 0%nat by lia. reflexivity.
  - pose proof (push_shift_length history price Hlen) as Hlen'.
    destruct (IH _ Hlen') as [Hbound Hkeep].
    split; [exact Hbound|].
    fold (appended cap (push_shift cap history price) rest).
    rewrite Hkeep. clear IH Hkeep Hbound Hlen'.
    unfold push_shift.
    destruct (Nat.ltb_spec cap (List.length (history ++ [price]))) as [Hover|Hfits];
      rewrite length_app in *; cbn [List.length] in *.
    + destruct history as [|oldest kept]; cbn [List.length app tl] in *.
      * assert (cap = 0)%nat by lia. subst cap.
        cbn [List.length]. rewrite !Nat.sub_0_r. reflexivity.
      * assert (List.length kept = Nat.pred cap) by lia.
        rewrite length_app. cbn [List.length].
        replace (S (List.length kept) + S (List.length rest) - cap)%nat
          with (S (List.length kept + 1 + List.length rest - cap)) by lia.
        cbn [skipn]. rewrite <- app_assoc. reflexivity.
    + rewrite <- app_assoc. cbn [app].
      replace (List.length history + 1 + List.length rest)%nat
        with (List.length history + S (List.length rest))%nat by lia.
      reflexivity.
Qed.

End History.

Lemma appendAll_appended (w : world) (prices : list jsval) (s : state) :
  appendAll prices w s =
  (Ret tt, set_priceHistory (appended (maxHistoryLength s) (priceHistory s) prices) s).
Proof.
  revert s. induction prices as [|price rest IH]; intros s.
  - destruct s; reflexivity.
  - cbn [appendAll]. unfold bind, addToHistory, modify.
    rewrite IH. destruct s; reflexivity.
Qed.

(** C7. From any history no longer than [maxHistoryLength], a run of appends
    never leaves the history longer than [maxHistoryLength]; and after
    [maxHistoryLength + 5] appends the history has exactly
    [maxHistoryLength] entries, the last [maxHistoryLength] of the appended
    prices, in the order they were appended. *)
Theorem priceHistory_bounded_fifo (w : world) (s : state) (prices : list jsval) :
  (List.length (priceHistory s) <= maxHistoryLength s)%nat ->
  let s' := snd (appendAll prices w s) in
  (List.length (priceHistory s') <= maxHistoryLength s)%nat /\
  (List.length prices = (maxHistoryLength s + 5)%nat ->
   priceHistory s' = skipn 5 prices /\
   List.length (priceHistory s') = maxHistoryLength s).
Proof.
  intros Hlen. rewrite appendAll_appended. cbn [snd].
  destruct (appended_keeps_last (maxHistoryLength s) prices (priceHistory s) Hlen)
    as [Hbound Hkeep].
  assert (Hhist : priceHistory
                    (set_priceHistory
                       (appended (maxHistoryLength s) (priceHistory s) prices) s)
                  = appended (maxHistoryLength s) (priceHistory s) prices)
    by reflexivity.
  cbv zeta. rewrite Hhist.
  split; [exact Hbound|].
  intros Hcount.
  assert (Hlast : appended (maxHistoryLength s) (priceHistory s) prices = skipn 5 prices).
  { rewrite Hkeep, Hcount.
    replace (List.length (priceHistory s) + (maxHistoryLength s + 5) - maxHistoryLength s)%nat
      with (List.length (priceHistory s) + 5)%nat by lia.
    rewrite skipn_app.
    rewrite skipn_all2 by lia.
    replace (List.length (priceHistory s) + 5 - List.length (priceHistory s))%nat with 5%nat by lia.
    reflexivity. }
  split; [exact Hlast|].
  rewrite Hlast, length_skipn. lia.
Qed.

Lemma priceHistory_bounded_fifo_witness :
  let s' := snd (appendAll prices_1_to_25 (mkWorld (fun _ => 0) (fun _ => 0%Q)
                                                    (fun _ => Rejected) (fun _ => Rejected))
                           initial_state) in
  (List.length (priceHistory s') <= 20)%nat /\
  (List.length prices_1_to_25 = 25%nat ->
   priceHistory s' = skipn 5 prices_1_to_25 /\ List.length (priceHistory s') = 20%nat).
Proof.
  apply (priceHistory_bounded_fifo _ initial_state prices_1_to_25).
  cbn. lia.
Defined.

(** ** Running computations *)

Lemma bind_ret {A B} (m : M A) (k : A -> M B) (w : world) (s s' : state) (a : A) :
  m w s = (Ret a, s') -> bind m k w s = k a w s'.
Proof. intros H. unfold bind. rewrite H. reflexivity. Qed.

Lemma bind_throw {A B} (m : M A) (k : A -> M B) (w : world) (s s' : state) (e : exn) :
  m w s = (Throw e, s') -> bind m k w s = (Throw e, s').
Proof. intros H. unfold bind. rewrite H. reflexivity. Qed.

Lemma try_catch_ret {A} (m : M A) (h : exn -> M A) (w : world) (s s' : state) (a : A) :
  m w s = (Ret a, s') -> try_catch m h w s = (Ret a, s').
Proof. intros H. unfold try_catch. rewrite H. reflexivity. Qed.

Lemma try_catch_throw {A} (m : M A) (h : exn -> M A) (w : world) (s s' : state) (e : exn) :
  m w s = (Throw e, s') -> try_catch m h w s = h e w s'.
Proof. intros H. unfold try_catch. rewrite H. reflexivity. Qed.

(** ** The last-session record *)

Lemma fetchLastTradingDayFromAPI_failure (w : world) (s : state) :
  succeeded (fetch_stats w (statsRequests s)) = false ->
  fetchLastTradingDayFromAPI w s = (Ret VNull, asked_stats s).
Proof.
  intros Hfail.
  unfold fetchLastTradingDayFromAPI, try_catch, bind, fetch.
  destruct (fetch_stats w (statsRequests s)) as [|[|] body];
    [reflexivity | discriminate Hfail | reflexivity].
Qed.

Lemma getLastTradingDayData_remote_failure (w : world) (s : state) :
  hasText (localStorage s) = false ->
  succeeded (fetch_stats w (statsRequests s)) = false ->
  getLastTradingDayData w s = (Ret VNull, asked_stats s).
Proof.
  intros Hcache Hfail.
  unfold getLastTradingDayData.
  apply try_catch_ret.
  unfold bind, gets.
  destruct (localStorage s) as [[| |]|] eqn:Hslot; cbn in Hcache; try discriminate;
    cbn [hasText]; apply fetchLastTradingDayFromAPI_failure; exact Hfail.
Qed.

(** C1. With nothing in the local-storage slot and a remote lookup that
    rejects or answers without success, [getLastTradingDayData] returns
    [null] (after one request), which is no CachedRecord: the hardcoded
    default of [getDefaultLastTradingDayData] is not reached. *)
Theorem getLastTradingDayData_null_without_cache_and_remote (w : world) (s : state) :
  hasText (localStorage s) = false ->
  succeeded (fetch_stats w (statsRequests s)) = false ->
  getLastTradingDayData w s = (Ret VNull, asked_stats s)
  /\ isCachedRecord VNull = false
  /\ isCachedRecord getDefaultLastTradingDayData = true.
Proof.
  intros Hcache Hfail.
  split; [apply getLastTradingDayData_remote_failure; assumption|].
  split; reflexivity.
Qed.

Lemma getLastTradingDayData_null_without_cache_and_remote_witness :
  getLastTradingDayData (world_remote_down sunday_0915) initial_state
    = (Ret VNull, asked_stats initial_state)
  /\ isCachedRecord VNull = false
  /\ isCachedRecord getDefaultLastTradingDayData = true.
Proof.
  apply (getLastTradingDayData_null_without_cache_and_remote
           (world_remote_down sunday_0915) initial_state); reflexivity.
Defined.

(** ** A tick while the market is closed *)

Lemma render_null (lastTradingDay : bool) (w : world) (s : state) :
  render lastTradingDay VNull w s = (Throw TypeError, set_currentData VNull s).
Proof. reflexivity. Qed.

Section ClosedTick.

Variable w : world.
Variable s : state.

Hypothesis closed : forall n : nat, isMarketOpenAt (clock w n) = false.
Hypothesis no_cache : hasText (localStorage s) = false.
Hypothesis remote_down : forall n : nat, succeeded (fetch_stats w n) = false.

Lemma fetchNiftyPrice_closed_remote_down :
  fetchNiftyPrice w s = (Throw TypeError, after_closed_tick s).
Proof.
  unfold fetchNiftyPrice.
  set (s1 := set_clockReads (S (clockReads s)) s).
  assert (Hget1 : getLastTradingDayData w s1 = (Ret VNull, asked_stats s1)).
  { apply getLastTradingDayData_remote_failure; [exact no_cache | apply remote_down]. }
  erewrite try_catch_throw; cycle 1.
  { unfold isMarketOpen.
    erewrite bind_ret; [|erewrite bind_ret; [|reflexivity]; reflexivity].
    rewrite closed.
    erewrite bind_ret; [|exact Hget1].
    apply render_null. }
  set (s2 := set_currentData VNull (asked_stats s1)).
  unfold isMarketOpen.
  erewrite bind_ret; [|erewrite bind_ret; [|reflexivity]; reflexivity].
  rewrite closed. cbn [negb].
  set (s3 := set_clockReads (S (clockReads s2)) s2).
  assert (Hget2 : getLastTradingDayData w s3 = (Ret VNull, asked_stats s3)).
  { apply getLastTradingDayData_remote_failure; [exact no_cache | apply remote_down]. }
  erewrite bind_ret; [|exact Hget2].
  unfold updateUIWithLastTradingDay. rewrite render_null.
  reflexivity.
Qed.

End ClosedTick.

(** C2. A tick at a market-closed time with nothing in the local-storage
    slot and the remote lookup down does not show the hardcoded default
    quote: [getLastTradingDayData] hands [null] to
    [updateUIWithLastTradingDay], reading [data.price] throws, the handler
    of [fetchNiftyPrice] repeats the same steps, and the tick ends in a
    TypeError with [currentData] set to [null] and no time stamp marked
    "(Last Trading Day)" written. *)
Theorem closed_tick_misses_default_quote (w : world) (s : state) :
  (forall n : nat, isMarketOpenAt (clock w n) = false) ->
  hasText (localStorage s) = false ->
  (forall n : nat, succeeded (fetch_stats w n) = false) ->
  fetchNiftyPrice w s = (Throw TypeError, after_closed_tick s)
  /\ currentData (after_closed_tick s) = VNull
  /\ currentData (after_closed_tick s) <> getDefaultLastTradingDayData
  /\ dom (after_closed_tick s) = dom s.
Proof.
  intros Hclosed Hcache Hdown.
  split; [apply fetchNiftyPrice_closed_remote_down; assumption|].
  repeat split. cbn. discriminate.
Qed.

Lemma closed_tick_misses_default_quote_witness :
  fetchNiftyPrice (world_remote_down sunday_0915) initial_state
    = (Throw TypeError, after_closed_tick initial_state)
  /\ currentData (after_closed_tick initial_state) = VNull
  /\ currentData (after_closed_tick initial_state) <> getDefaultLastTradingDayData
  /\ dom (after_closed_tick initial_state) = dom initial_state.
Proof.
  apply (closed_tick_misses_default_quote (world_remote_down sunday_0915) initial_state).
  - intros n. reflexivity.
  - reflexivity.
  - intros n. reflexivity.
Defined.

(** C3. There is a tick that delivers no quote: at a market-closed time,
    with nothing in the local-storage slot and the remote lookup down,
    [fetchNiftyPrice] ends in an exception (its promise rejects), no element
    of the page is written, no price joins the history, and what is left in
    [currentData] is not a quote. *)
Theorem closed_tick_delivers_no_quote (w : world) (s : state) :
  (forall n : nat, isMarketOpenAt (clock w n) = false) ->
  hasText (localStorage s) = false ->
  (forall n : nat, succeeded (fetch_stats w n) = false) ->
  let (outcome, s') := fetchNiftyPrice w s in
  outcome = Throw TypeError
  /\ dom s' = dom s
  /\ priceHistory s' = priceHistory s
  /\ isCachedRecord (currentData s') = false.
Proof.
  intros Hclosed Hcache Hdown.
  rewrite (fetchNiftyPrice_closed_remote_down w s Hclosed Hcache Hdown).
  repeat split.
Qed.

Lemma closed_tick_delivers_no_quote_witness :
  let (outcome, s') := fetchNiftyPrice (world_remote_down sunday_0915) initial_state in
  outcome = Throw TypeError
  /\ dom s' = dom initial_state
  /\ priceHistory s' = priceHistory initial_state
  /\ isCachedRecord (currentData s') = false.
Proof.
  apply (closed_tick_delivers_no_quote (world_remote_down sunday_0915) initial_state).
  - intros n. reflexivity.
  - reflexivity.
  - intros n. reflexivity.
Defined.

(** The [null] left in [currentData] also breaks the next tick at a
    market-open time whose live request fails: mock generation reads
    [currentData.price], throws, and nobody awaits its promise. *)
Remark open_tick_after_null_renders_nothing :
  fetchNiftyPrice (world_remote_down tuesday_0915) (after_closed_tick initial_state)
  = (Ret tt,
     set_unhandledRejections [TypeError]
       (set_clockReads 5
          (set_priceRequests 1 (after_closed_tick initial_state)))).
Proof. reflexivity. Qed.

(** ** The remote lookup of the last session *)

Lemma fetchLastTradingDayFromAPI_keeps_slot_on_failure (w : world) (s : state) :
  (forall body, fetch_stats w (statsRequests s) <> Response true (Some body)) ->
  fetchLastTradingDayFromAPI w s = (Ret VNull, asked_stats s).
Proof.
  intros Hno.
  unfold fetchLastTradingDayFromAPI, try_catch, bind, fetch.
  destruct (fetch_stats w (statsRequests s)) as [|[|] [body|]];
    [reflexivity | | reflexivity | reflexivity | reflexivity].
  exfalso. apply (Hno body). reflexivity.
Qed.

Lemma fetchLastTradingDayFromAPI_slot (w : world) (s : state) :
  localStorage (snd (fetchLastTradingDayFromAPI w s)) <> localStorage s ->
  exists body, fetch_stats w (statsRequests s) = Response true (Some body).
Proof.
  intros Hchanged.
  destruct (fetch_stats w (statsRequests s)) as [|[|] [body|]] eqn:Hresp;
    try (exfalso; apply Hchanged;
         rewrite fetchLastTradingDayFromAPI_keeps_slot_on_failure;
         [reflexivity | intros body'; rewrite Hresp; discriminate]).
  exists body. reflexivity.
Qed.

Lemma get_prop_get_opt (v : jsval) (k : string) :
  nullish v = false -> get_prop v k = Ret (get_opt v k).
Proof.
  intros Hv. unfold get_opt.
  destruct v; try discriminate; cbn; try reflexivity.
  destruct (lookup k props); reflexivity.
Qed.

Lemma raw_or_run (data : jsval) (module field : string) (fallback : Q)
  (w : world) (s : state) :
  nullish data = false ->
  raw_or data module field fallback w s
  = (Ret (js_or (extracted data module field) (qnum fallback)), s).
Proof.
  intros Hdata. unfold raw_or, bind, lift, ret, extracted.
  rewrite (get_prop_get_opt data module Hdata). reflexivity.
Qed.

Lemma fetchLastTradingDayFromAPI_success
  (w : world) (s : state) (body data : jsval) :
  fetch_stats w (statsRequests s) = Response true (Some body) ->
  first_result body = Ret data ->
  nullish data = false ->
  fetchLastTradingDayFromAPI w s
  = (Ret (historicalRecord data),
     set_localStorage (Some (JSON_stringify (historicalRecord data))) (asked_stats s)).
Proof.
  intros Hresp Hfirst Hdata.
  unfold fetchLastTradingDayFromAPI.
  apply try_catch_ret.
  erewrite bind_ret; [|unfold fetch; rewrite Hresp; reflexivity].
  cbv iota beta.
  erewrite bind_ret; [|reflexivity].
  erewrite bind_ret; [|unfold lift; rewrite Hfirst; reflexivity].
  repeat (erewrite bind_ret; [|apply raw_or_run; exact Hdata]).
  reflexivity.
Qed.

(** C10. In the remote lookup a field is replaced by its constant not only
    when the payload lacks it but whenever the value found is falsy: for
    every successful payload and every one of the seven fields, a falsy
    value (the number 0, in particular) leaves the field's documented
    default in the record that is returned and stored. *)
Theorem falsy_field_takes_default
  (w : world) (s : state) (body data : jsval)
  (key module field : string) (fallback : Q) :
  fetch_stats w (statsRequests s) = Response true (Some body) ->
  first_result body = Ret data ->
  nullish data = false ->
  In (key, (module, field, fallback)) historicalFields ->
  truthy (extracted data module field) = false ->
  exists record s',
    fetchLastTradingDayFromAPI w s = (Ret record, s')
    /\ get_prop record key = Ret (qnum fallback)
    /\ localStorage s' = Some (JSON_stringify record).
Proof.
  intros Hresp Hfirst Hdata Hin Hfalsy.
  exists (historicalRecord data).
  eexists. split; [apply (fetchLastTradingDayFromAPI_success w s body data); assumption|].
  split; [|reflexivity].
  unfold historicalFields in Hin. cbn [In] in Hin.
  repeat (destruct Hin as [Hin|Hin];
          [injection Hin as <- <- <- <-;
           unfold historicalRecord, lastTradingDayQuote, js_or;
           rewrite Hfalsy; reflexivity|]).
  contradiction.
Qed.

Lemma falsy_field_takes_default_witness :
  exists record s',
    fetchLastTradingDayFromAPI (world_stats (payload_only_price (qnum 0))) initial_state
      = (Ret record, s')
    /\ get_prop record "price" = Ret (qnum 24250)
    /\ localStorage s' = Some (JSON_stringify record).
Proof.
  apply (falsy_field_takes_default
           (world_stats (payload_only_price (qnum 0))) initial_state
           (payload_only_price (qnum 0))
           (VObj [("financialData", VObj [("regularMarketPrice", VObj [("raw", qnum 0)])])])
           "price" "financialData" "regularMarketPrice" 24250%Q).
  - reflexivity.
  - reflexivity.
  - reflexivity.
  - left. reflexivity.
  - reflexivity.
Defined.

(** C5, as the specification states it, fails for a price of 0: the record
    then holds 24250, not the value of the payload. *)
Lemma only_price_zero_not_returned :
  fst (fetchLastTradingDayFromAPI (world_stats (payload_only_price (qnum 0))) initial_state)
    = Ret (recordOfPrice (qnum 24250))
  /\ get_prop (recordOfPrice (qnum 24250)) "price" <> Ret (qnum 0).
Proof.
  split; [reflexivity|].
  intros H. vm_compute in H. discriminate H.
Qed.

(** C5 (amended). When the remote lookup succeeds with a payload in which
    only [regularMarketPrice] is present, and its value is truthy (a number
    other than 0), the record returned has that value as its price, 0 as
    change and changePercent, and high 25000, low 23000, open 24000 and
    previous close 24250; the same record goes to the local-storage slot,
    and it is what [getLastTradingDayData] returns when the slot had no
    usable text. *)
Theorem only_price_present_defaults (w : world) (s : state) (v : jsval) :
  truthy v = true ->
  fetch_stats w (statsRequests s) = Response true (Some (payload_only_price v)) ->
  fetchLastTradingDayFromAPI w s
  = (Ret (recordOfPrice v),
     set_localStorage (Some (JSON_stringify (recordOfPrice v))) (asked_stats s))
  /\ get_prop (recordOfPrice v) "price" = Ret v
  /\ (hasText (localStorage s) = false ->
      fst (getLastTradingDayData w s) = Ret (recordOfPrice v)).
Proof.
  intros Htruthy Hresp.
  assert (Hrun :
    fetchLastTradingDayFromAPI w s
    = (Ret (recordOfPrice v),
       set_localStorage (Some (JSON_stringify (recordOfPrice v))) (asked_stats s))).
  { rewrite (fetchLastTradingDayFromAPI_success w s (payload_only_price v)
               (VObj [("financialData",
                       VObj [("regularMarketPrice", VObj [("raw", v)])])]) Hresp);
      [|reflexivity|reflexivity].
    unfold historicalRecord, recordOfPrice, extracted, js_or. cbn.
    rewrite Htruthy. reflexivity. }
  split; [exact Hrun|].
  split; [reflexivity|].
  intros Hcache.
  unfold getLastTradingDayData, try_catch, bind, gets.
  destruct (localStorage s) as [[| |]|]; cbn in Hcache; try discriminate;
    cbn [hasText]; rewrite Hrun; reflexivity.
Qed.

Lemma only_price_present_defaults_witness :
  fetchLastTradingDayFromAPI (world_stats (payload_only_price (qnum 24300))) initial_state
  = (Ret (recordOfPrice (qnum 24300)),
     set_localStorage (Some (JSON_stringify (recordOfPrice (qnum 24300))))
                      (asked_stats initial_state))
  /\ get_prop (recordOfPrice (qnum 24300)) "price" = Ret (qnum 24300)
  /\ (hasText (localStorage initial_state) = false ->
      fst (getLastTradingDayData (world_stats (payload_only_price (qnum 24300)))
                                 initial_state)
      = Ret (recordOfPrice (qnum 24300))).
Proof.
  apply (only_price_present_defaults
           (world_stats (payload_only_price (qnum 24300))) initial_state (qnum 24300));
    reflexivity.
Defined.

(** ** The local-storage slot *)

(** The remote lookup returns [null] and leaves the slot alone, or returns
    the record it made of a payload and has stored that record. *)
Lemma fetchLastTradingDayFromAPI_outcome (w : world) (s : state) :
  fetchLastTradingDayFromAPI w s = (Ret VNull, asked_stats s)
  \/ exists body data,
      fetch_stats w (statsRequests s) = Response true (Some body)
      /\ first_result body = Ret data
      /\ nullish data = false
      /\ fetchLastTradingDayFromAPI w s
         = (Ret (historicalRecord data),
            set_localStorage (Some (JSON_stringify (historicalRecord data)))
                             (asked_stats s)).
Proof.
  destruct (fetch_stats w (statsRequests s)) as [|[|] [body|]] eqn:Hresp;
    try (left; apply fetchLastTradingDayFromAPI_keeps_slot_on_failure;
         intros body'; rewrite Hresp; discriminate).
  destruct (first_result body) as [data|e] eqn:Hfirst.
  - destruct (nullish data) eqn:Hnull.
    + left. unfold fetchLastTradingDayFromAPI.
      erewrite try_catch_throw; [reflexivity|].
      erewrite bind_ret; [|unfold fetch; rewrite Hresp; reflexivity].
      cbv iota beta.
      erewrite bind_ret; [|reflexivity].
      erewrite bind_ret; [|unfold lift; rewrite Hfirst; reflexivity].
      apply bind_throw with (e := TypeError).
      unfold raw_or. apply bind_throw.
      destruct data; try discriminate; reflexivity.
    + right. exists body, data.
      split; [reflexivity|]. split; [exact Hfirst|]. split; [exact Hnull|].
      apply (fetchLastTradingDayFromAPI_success w s body data Hresp Hfirst Hnull).
  - left. unfold fetchLastTradingDayFromAPI.
    erewrite try_catch_throw; [reflexivity|].
    erewrite bind_ret; [|unfold fetch; rewrite Hresp; reflexivity].
    cbv iota beta.
    erewrite bind_ret; [|reflexivity].
    apply bind_throw. unfold lift. rewrite Hfirst. reflexivity.
Qed.

(** Without usable text in the slot, [getLastTradingDayData] is the remote
    lookup. *)
Lemma getLastTradingDayData_remote (w : world) (s : state) :
  hasText (localStorage s) = false ->
  getLastTradingDayData w s = fetchLastTradingDayFromAPI w s.
Proof.
  intros Hcache.
  unfold getLastTradingDayData, try_catch, bind, gets.
  destruct (localStorage s) as [[| |]|]; try discriminate Hcache; cbn [hasText];
    destruct (fetchLastTradingDayFromAPI_outcome w s)
      as [->|(body & data & _ & _ & _ & ->)]; reflexivity.
Qed.

(** C9. The local-storage slot is written on the path of a successful
    remote lookup only, and with the record that is returned.  When the slot
    holds text that parses, [getLastTradingDayData] returns the parsed value
    as it is and leaves the whole state as it was: no request is sent and
    nothing is written.  When the text does not parse, the hardcoded default
    is returned and the state is as it was.  When the slot holds no usable
    text, one request is sent, and either [null] is returned and nothing
    else of the state changes, or the request was answered with success and
    a JSON body whose first result is an object, the record made of it is
    returned, and the state differs in the count of requests and in the
    slot, which holds the serialisation of that record.  So whenever the
    slot differs after the call, it had no usable text, what is returned is
    the record made of the successful answer, and the slot holds the
    serialisation of what is returned. *)
Theorem slot_written_only_after_remote_success
  (w : world) (s s' : state) (r : result jsval) :
  getLastTradingDayData w s = (r, s') ->
  (forall v, localStorage s = Some (JsonText v) -> r = Ret v /\ s' = s)
  /\ (localStorage s = Some Garbled ->
      r = Ret getDefaultLastTradingDayData /\ s' = s)
  /\ (hasText (localStorage s) = false ->
      (r = Ret VNull /\ s' = asked_stats s)
      \/ exists body data,
          fetch_stats w (statsRequests s) = Response true (Some body)
          /\ first_result body = Ret data
          /\ nullish data = false
          /\ r = Ret (historicalRecord data)
          /\ s' = set_localStorage (Some (JSON_stringify (historicalRecord data)))
                                   (asked_stats s))
  /\ (localStorage s' <> localStorage s ->
      hasText (localStorage s) = false
      /\ exists body data,
          fetch_stats w (statsRequests s) = Response true (Some body)
          /\ first_result body = Ret data
          /\ nullish data = false
          /\ r = Ret (historicalRecord data)
          /\ localStorage s' = Some (JSON_stringify (historicalRecord data))).
Proof.
  intros Hrun.
  assert (Hremote :
    hasText (localStorage s) = false ->
    (r = Ret VNull /\ s' = asked_stats s)
    \/ exists body data,
        fetch_stats w (statsRequests s) = Response true (Some body)
        /\ first_result body = Ret data
        /\ nullish data = false
        /\ r = Ret (historicalRecord data)
        /\ s' = set_localStorage (Some (JSON_stringify (historicalRecord data)))
                                 (asked_stats s)).
  { intros Hcache.
    rewrite (getLastTradingDayData_remote w s Hcache) in Hrun.
    destruct (fetchLastTradingDayFromAPI_outcome w s)
      as [Hnull|(body & data & Hresp & Hfirst & Hdata & Hok)].
    - left. rewrite Hnull in Hrun.
      apply pair_equal_spec in Hrun. destruct Hrun as [<- <-]. split; reflexivity.
    - right. exists body, data. rewrite Hok in Hrun.
      apply pair_equal_spec in Hrun. destruct Hrun as [<- <-].
      split; [exact Hresp|]. split; [exact Hfirst|]. split; [exact Hdata|].
      split; reflexivity. }
  assert (Hlocal :
    hasText (localStorage s) = true -> s' = s).
  { intros Hcache.
    unfold getLastTradingDayData, try_catch, bind, gets in Hrun.
    destruct (localStorage s) as [[|v|]|]; try discriminate Hcache;
      cbn [hasText JSON_parse lift] in Hrun;
      apply pair_equal_spec in Hrun; destruct Hrun as [_ <-]; reflexivity. }
  split.
  { intros v Hv.
    unfold getLastTradingDayData, try_catch, bind, gets in Hrun.
    rewrite Hv in Hrun. cbn [hasText JSON_parse lift] in Hrun.
    apply pair_equal_spec in Hrun. destruct Hrun as [<- <-]. split; reflexivity. }
  split.
  { intros Hv.
    unfold getLastTradingDayData, try_catch, bind, gets in Hrun.
    rewrite Hv in Hrun. cbn [hasText JSON_parse lift] in Hrun.
    apply pair_equal_spec in Hrun. destruct Hrun as [<- <-]. split; reflexivity. }
  split; [exact Hremote|].
  intros Hchanged.
  destruct (hasText (localStorage s)) eqn:Hcache.
  - exfalso. apply Hchanged. rewrite (Hlocal eq_refl). reflexivity.
  - split; [reflexivity|].
    destruct (Hremote eq_refl) as [[_ ->]|(body & data & Hresp & Hfirst & Hdata & Hr & ->)].
    + exfalso. apply Hchanged. reflexivity.
    + exists body, data.
      split; [exact Hresp|]. split; [exact Hfirst|]. split; [exact Hdata|].
      split; [exact Hr | reflexivity].
Qed.

Lemma slot_written_only_after_remote_success_witness :
  let w := world_stats (payload_only_price (qnum 24300)) in
  let s := initial_state in
  let r := fst (getLastTradingDayData w s) in
  let s' := snd (getLastTradingDayData w s) in
  localStorage s' <> localStorage s
  /\ r = Ret (recordOfPrice (qnum 24300))
  /\ (forall v, localStorage s = Some (JsonText v) -> r = Ret v /\ s' = s)
  /\ (localStorage s = Some Garbled ->
      r = Ret getDefaultLastTradingDayData /\ s' = s)
  /\ (hasText (localStorage s) = false ->
      (r = Ret VNull /\ s' = asked_stats s)
      \/ exists body data,
          fetch_stats w (statsRequests s) = Response true (Some body)
          /\ first_result body = Ret data
          /\ nullish data = false
          /\ r = Ret (historicalRecord data)
          /\ s' = set_localStorage (Some (JSON_stringify (historicalRecord data)))
                                   (asked_stats s))
  /\ (localStorage s' <> localStorage s ->
      hasText (localStorage s) = false
      /\ exists body data,
          fetch_stats w (statsRequests s) = Response true (Some body)
          /\ first_result body = Ret data
          /\ nullish data = false
          /\ r = Ret (historicalRecord data)
          /\ localStorage s' = Some (JSON_stringify (historicalRecord data))).
Proof.
  cbv zeta.
  split; [vm_compute; discriminate|].
  split; [vm_compute; reflexivity|].
  apply (slot_written_only_after_remote_success
           (world_stats (payload_only_price (qnum 24300))) initial_state).
  vm_compute. reflexivity.
Defined.

(** ** The live quote *)

Lemma get_prop_Ret_nullish (v x : jsval) (k : string) :
  get_prop v k = Ret x -> nullish v = false /\ get_opt v k = x.
Proof.
  intros H. unfold get_opt. rewrite H.
  destruct v; cbn in H; try discriminate; split; reflexivity.
Qed.

Lemma raw_of_run (priceData : jsval) (field : string) (w : world) (s : state) :
  raw_of priceData field w s
  = (match get_prop priceData field with
     | Ret wrapped => get_prop wrapped "raw"
     | Throw e => Throw e
     end, s).
Proof.
  unfold raw_of, bind, lift.
  destruct (get_prop priceData field); reflexivity.
Qed.

Lemma raw_of_cases (priceData : jsval) (field : string) :
  (exists e,
      match get_prop priceData field with
      | Ret wrapped => get_prop wrapped "raw"
      | Throw e => Throw e
      end = Throw e)
  \/ (nullish (get_opt priceData field) = false
      /\ match get_prop priceData field with
         | Ret wrapped => get_prop wrapped "raw"
         | Throw e => Throw e
         end = Ret (raw_field priceData field)).
Proof.
  destruct (get_prop priceData field) as [wrapped|e] eqn:Hwrapped.
  - destruct (get_prop wrapped "raw") as [x|e] eqn:Hraw.
    + right.
      destruct (get_prop_Ret_nullish _ _ _ Hwrapped) as [_ Hw].
      destruct (get_prop_Ret_nullish _ _ _ Hraw) as [Hnn Hx].
      unfold raw_field. rewrite Hw. split; [exact Hnn|]. rewrite Hx. reflexivity.
    + left. exists e. reflexivity.
  - left. exists e. reflexivity.
Qed.

(** C8 (amended). [tryFetchFromFinance] never throws and sends exactly one
    request.  It returns [null] when the request is rejected or the response
    is not [ok]; and whenever it returns something else, the response was
    [ok] with a JSON body in which [quoteSummary.result[0].price] holds a
    value other than [null] and [undefined] under each of the seven names,
    and the fields of the returned object are the [raw] properties of those
    values, whatever they hold. *)
Theorem tryFetchFromFinance_null_or_raw_fields (w : world) (s : state) :
  exists v,
    tryFetchFromFinance w s = (Ret v, asked_price s)
    /\ (succeeded (fetch_price w (priceRequests s)) = false -> v = VNull)
    /\ (v = VNull
        \/ exists body first priceData,
            fetch_price w (priceRequests s) = Response true (Some body)
            /\ first_result body = Ret first
            /\ get_prop first "price" = Ret priceData
            /\ forallb (fun field => negb (nullish (get_opt priceData field))) liveFields
               = true
            /\ v = liveQuote priceData).
Proof.
  unfold tryFetchFromFinance, try_catch.
  unfold bind at 1. unfold fetch.
  destruct (fetch_price w (priceRequests s)) as [|[|] [body|]] eqn:Hresp;
    try (exists VNull; cbn; split; [reflexivity|];
         split; [intros; reflexivity | left; reflexivity]).
  cbv iota beta.
  unfold bind at 1. cbn [json ret].
  unfold bind at 1. unfold lift at 1.
  destruct (first_result body) as [first|e] eqn:Hfirst;
    [|exists VNull; split; [reflexivity|];
      split; [intros; reflexivity | left; reflexivity]].
  unfold bind at 1. unfold lift at 1.
  destruct (get_prop first "price") as [priceData|e] eqn:Hprice;
    [|exists VNull; split; [reflexivity|];
      split; [intros; reflexivity | left; reflexivity]].
  assert (Hgoal : forall r : result jsval * state,
             ((exists e, r = (Throw e, asked_price s))
              \/ (r = (Ret (liveQuote priceData), asked_price s)
                  /\ forallb (fun field => negb (nullish (get_opt priceData field)))
                             liveFields = true)) ->
             exists v,
               match r with
               | (Ret a, s') => (Ret a, s')
               | (Throw e, s') => ret VNull w s'
               end = (Ret v, asked_price s)
               /\ (succeeded (Response true (Some body)) = false -> v = VNull)
               /\ (v = VNull
                   \/ exists body0 first0 priceData0,
                       Response true (Some body) = Response true (Some body0)
                       /\ first_result body0 = Ret first0
                       /\ get_prop first0 "price" = Ret priceData0
                       /\ forallb (fun field =>
                                     negb (nullish (get_opt priceData0 field)))
                                  liveFields = true
                       /\ v = liveQuote priceData0)).
  { intros r [[e ->]|[-> Hall]].
    - exists VNull. split; [reflexivity|].
      split; [intros; reflexivity | left; reflexivity].
    - exists (liveQuote priceData). split; [reflexivity|].
      split; [cbn; discriminate|].
      right. exists body, first, priceData. repeat split; assumption. }
  destruct (raw_of_cases priceData "regularMarketPrice") as [[e1 H1]|[P1 H1]];
  destruct (raw_of_cases priceData "regularMarketChange") as [[e2 H2]|[P2 H2]];
  destruct (raw_of_cases priceData "regularMarketChangePercent") as [[e3 H3]|[P3 H3]];
  destruct (raw_of_cases priceData "regularMarketDayHigh") as [[e4 H4]|[P4 H4]];
  destruct (raw_of_cases priceData "regularMarketDayLow") as [[e5 H5]|[P5 H5]];
  destruct (raw_of_cases priceData "regularMarketOpen") as [[e6 H6]|[P6 H6]];
  destruct (raw_of_cases priceData "regularMarketPreviousClose") as [[e7 H7]|[P7 H7]];
  apply Hgoal;
  unfold bind; rewrite !raw_of_run, ?H1;
  cbv iota beta; rewrite ?raw_of_run, ?H2;
  cbv iota beta; rewrite ?raw_of_run, ?H3;
  cbv iota beta; rewrite ?raw_of_run, ?H4;
  cbv iota beta; rewrite ?raw_of_run, ?H5;
  cbv iota beta; rewrite ?raw_of_run, ?H6;
  cbv iota beta; rewrite ?raw_of_run, ?H7;
  cbv iota beta;
  try (left; eexists; reflexivity).
  right. split; [reflexivity|].
  cbn [forallb liveFields]. rewrite P1, P2, P3, P4, P5, P6, P7. reflexivity.
Qed.

(** C8, as the specification states it, fails for a payload that lacks an
    expected number but keeps its wrapper: the result is not the failure
    value [null] but an object whose [price] is [undefined]. *)
Lemma missing_raw_is_not_a_failure :
  tryFetchFromFinance (world_price tuesday_0915 payload_price_without_raw) initial_state
  = (Ret (quote VUndef (qnum 50) (qnum 0.21) (qnum 24400) (qnum 24200)
                (qnum 24260) (qnum 24250)),
     asked_price initial_state)
  /\ quote VUndef (qnum 50) (qnum 0.21) (qnum 24400) (qnum 24200)
           (qnum 24260) (qnum 24250) <> VNull
  /\ isCachedRecord (quote VUndef (qnum 50) (qnum 0.21) (qnum 24400) (qnum 24200)
                           (qnum 24260) (qnum 24250)) = false.
Proof.
  split; [reflexivity|].
  split; [discriminate | reflexivity].
Qed.

(** ** Rounding *)

Local Open Scope Q_scope.

Lemma round_half_away_error (q : Q) :
  Qabs (inject_Z (round_half_away q) - q) <= 1 # 2.
Proof.
  unfold round_half_away.
  apply Qabs_Qle_condition.
  destruct (0 <=? Qnum q)%Z.
  - pose proof (Qfloor_le (q + (1 # 2))) as Hlow.
    pose proof (Qlt_floor (q + (1 # 2))) as Hhigh.
    rewrite inject_Z_plus in Hhigh. change (inject_Z 1) with 1 in Hhigh.
    split; lra.
  - pose proof (Qfloor_le (- q + (1 # 2))) as Hlow.
    pose proof (Qlt_floor (- q + (1 # 2))) as Hhigh.
    rewrite inject_Z_plus in Hhigh. change (inject_Z 1) with 1 in Hhigh.
    rewrite inject_Z_opp.
    split; lra.
Qed.

Lemma round2_error (q : Q) : Qabs (round2 q - q) <= 1 # 200.
Proof.
  unfold round2. rewrite Qred_correct.
  pose proof (round_half_away_error (q * 100)) as Herr.
  apply Qabs_Qle_condition in Herr.
  apply Qabs_Qle_condition.
  set (n := inject_Z (round_half_away (q * 100))) in *.
  unfold Qdiv. change (/ 100) with (1 # 100).
  split; lra.
Qed.

Lemma round_half_even_error (q : Q) :
  Qabs (inject_Z (round_half_even q) - q) <= 1 # 2.
Proof.
  unfold round_half_even.
  pose proof (Qfloor_le q) as Hlow.
  pose proof (Qlt_floor q) as Hhigh.
  rewrite inject_Z_plus in Hhigh. change (inject_Z 1) with 1 in Hhigh.
  apply Qabs_Qle_condition.
  destruct (Qcompare_spec (q - inject_Z (Qfloor q)) (1 # 2)) as [Heq|Hlt|Hgt].
  - destruct (Z.even (Qfloor q)).
    + split; lra.
    + rewrite inject_Z_plus. change (inject_Z 1) with 1. split; lra.
  - split; lra.
  - rewrite inject_Z_plus. change (inject_Z 1) with 1. split; lra.
Qed.

Lemma pow2_pos (e : Z) : 0 < pow2 e.
Proof. apply Qpower_0_lt. reflexivity. Qed.

Lemma pow2_le (a b : Z) : (a <= b)%Z -> pow2 a <= pow2 b.
Proof. intros H. apply Qpower_le_compat_l; [exact H | discriminate]. Qed.

Lemma pow2_succ (e : Z) : pow2 (e + 1) == 2 * pow2 e.
Proof.
  unfold pow2. rewrite Qpower_plus by discriminate.
  change (2 ^ 1) with 2. ring.
Qed.

Lemma floor_log2_le (q : Q) : 0 < q -> pow2 (floor_log2 q) <= q.
Proof.
  intros Hq. unfold floor_log2.
  set (k := (Z.log2 (Qnum q) - Z.log2 (Z.pos (Qden q)))%Z).
  destruct (Qle_bool (pow2 k) q) eqn:Hk.
  - apply Qle_bool_iff. exact Hk.
  - destruct q as [n d]. cbn [Qnum Qden] in *.
    assert (Hn : (0 < n)%Z).
    { unfold Qlt in Hq. cbn in Hq. lia. }
    pose proof (Z.log2_spec n Hn) as [Hnl _].
    pose proof (Z.log2_spec (Z.pos d) eq_refl) as [_ Hdh].
    pose proof (Z.log2_nonneg n) as Hn0.
    pose proof (Z.log2_nonneg (Z.pos d)) as Hd0.
    assert (Hnq : pow2 (Z.log2 n) <= inject_Z n).
    { unfold pow2. change 2 with (inject_Z 2).
      rewrite <- Zpower_Qpower by exact Hn0.
      rewrite <- Zle_Qle. exact Hnl. }
    assert (Hdq : inject_Z (Z.pos d) <= pow2 (Z.log2 (Z.pos d) + 1)).
    { unfold pow2. change 2 with (inject_Z 2).
      rewrite <- Zpower_Qpower by lia.
      rewrite <- Zle_Qle. unfold Z.succ in Hdh. lia. }
    rewrite (Qmake_Qdiv n d).
    apply Qle_shift_div_l; [reflexivity|].
    eapply Qle_trans; [|exact Hnq].
    eapply Qle_trans.
    { apply Qmult_le_l; [apply pow2_pos | exact Hdq]. }
    replace (Z.log2 n) with ((k - 1) + (Z.log2 (Z.pos d) + 1))%Z by (unfold k; lia).
    unfold pow2. rewrite (Qpower_plus 2 (k - 1)) by discriminate.
    apply Qle_refl.
Qed.

(** Below [2^K] a positive number is rounded to a double no further than
    [2^(K-53)] from it. *)
Lemma round_positive_near (K : Z) (q : Q) :
  (-1022 <= K <= 1023)%Z -> 0 < q -> q <= pow2 K ->
  exists q', round_positive q = Fin q' /\ Qabs (q' - q) <= pow2 (K - 53).
Proof.
  intros HK Hq Hmax. unfold round_positive.
  set (e := Z.max (floor_log2 q - 52) (-1074)).
  set (n := inject_Z (round_half_even (q / pow2 e))).
  assert (HL : (floor_log2 q <= K)%Z).
  { apply (Qpower_le_compat_l_inv 2); [|reflexivity].
    eapply Qle_trans; [apply floor_log2_le; exact Hq | exact Hmax]. }
  assert (He : (e <= K - 53 + 1)%Z) by (unfold e; lia).
  pose proof (pow2_pos e) as Hpe.
  pose proof (round_half_even_error (q / pow2 e)) as Herr. fold n in Herr.
  assert (Hv : Qabs (n * pow2 e - q) <= pow2 (K - 53)).
  { assert (Hne : ~ pow2 e == 0).
    { intros H0. rewrite H0 in Hpe. discriminate. }
    setoid_replace (n * pow2 e - q) with ((n - q / pow2 e) * pow2 e)
      by (field; exact Hne).
    rewrite Qabs_Qmult, (Qabs_pos (pow2 e)) by (apply Qlt_le_weak; exact Hpe).
    eapply Qle_trans.
    { apply Qmult_le_compat_r; [exact Herr | apply Qlt_le_weak; exact Hpe]. }
    pose proof (pow2_le e (K - 53 + 1) He) as Hle.
    rewrite pow2_succ in Hle.
    set (x := pow2 e) in *. set (y := pow2 (K - 53)) in *. lra. }
  assert (Hover : Qle_bool (pow2 1024) (n * pow2 e) = false).
  { destruct (Qle_bool (pow2 1024) (n * pow2 e)) eqn:Hb; [|reflexivity].
    exfalso. apply Qle_bool_iff in Hb.
    apply Qabs_Qle_condition in Hv.
    pose proof (pow2_le (K + 1) 1024 ltac:(lia)) as H1.
    rewrite pow2_succ in H1.
    assert (H2 : pow2 (K - 53) < pow2 K).
    { apply Qpower_lt_compat_l; [lia | reflexivity]. }
    set (x := pow2 (K - 53)) in *. set (y := pow2 K) in *.
    set (z := pow2 1024) in *. set (v := n * pow2 e) in *.
    lra. }
  rewrite Hover. eexists. split; [reflexivity|].
  rewrite Qred_correct. exact Hv.
Qed.

Lemma double_near (K : Z) (q : Q) :
  (-1022 <= K <= 1023)%Z -> Qabs q <= pow2 K ->
  exists q', double q = Fin q' /\ Qabs (q' - q) <= pow2 (K - 53).
Proof.
  intros HK Hmax. unfold double.
  destruct q as [n d]. cbn [Qnum].
  destruct n as [|n|n].
  - exists 0. split; [reflexivity|].
    setoid_replace (0 - (0 # d)) with 0 by reflexivity.
    apply Qlt_le_weak. apply pow2_pos.
  - apply round_positive_near; [exact HK | reflexivity |].
    rewrite Qabs_pos in Hmax by discriminate. exact Hmax.
  - destruct (round_positive_near K (- (Z.neg n # d)) HK) as (q' & Hrun & Hnear).
    + reflexivity.
    + rewrite Qabs_neg in Hmax by discriminate. exact Hmax.
    + rewrite Hrun. eexists. split; [reflexivity|].
      rewrite Qred_correct.
      setoid_replace (- q' - (Z.neg n # d)) with (- (q' - - (Z.neg n # d))) by ring.
      rewrite Qabs_opp. exact Hnear.
Qed.

Lemma double_within (K : Z) (q : Q) :
  (-1022 <= K <= 1023)%Z -> - pow2 K <= q -> q <= pow2 K ->
  exists q',
    double q = Fin q' /\ - pow2 (K - 53) <= q' - q /\ q' - q <= pow2 (K - 53).
Proof.
  intros HK Hlow Hhigh.
  destruct (double_near K q HK) as (q' & Hq & Herr).
  - apply Qabs_Qle_condition. split; assumption.
  - exists q'. split; [exact Hq|].
    apply Qabs_Qle_condition in Herr. exact Herr.
Qed.

(** [parseFloat(x.toFixed(2))] of a number within [2^K - 1] of zero is
    within 0.005 of it, up to the rounding of the double that is read. *)
Lemma toFixed2_within (K : Z) (q : Q) :
  (0 <= K <= 60)%Z -> - pow2 K + 1 <= q -> q <= pow2 K - 1 ->
  exists q',
    toFixed2 (Fin q) = Fin q'
    /\ - ((1 # 200) + pow2 (K - 53)) <= q' - q
    /\ q' - q <= (1 # 200) + pow2 (K - 53).
Proof.
  intros HK Hlow Hhigh. unfold toFixed2.
  pose proof (pow2_le K 60 ltac:(lia)) as H60.
  assert (Hsmall : Qle_bool (inject_Z (10 ^ 21)) (Qabs q) = false).
  { destruct (Qle_bool (inject_Z (10 ^ 21)) (Qabs q)) eqn:Hb; [|reflexivity].
    exfalso. apply Qle_bool_iff in Hb.
    assert (Habs : Qabs q <= pow2 K) by (apply Qabs_Qle_condition; split; lra).
    change (pow2 60) with (1152921504606846976 # 1) in H60.
    change (inject_Z (10 ^ 21)) with (1000000000000000000000 # 1) in Hb.
    set (x := pow2 K) in *. set (y := Qabs q) in *. lra. }
  rewrite Hsmall.
  pose proof (round2_error q) as Herr. apply Qabs_Qle_condition in Herr.
  destruct (double_within K (round2 q)) as (q' & Hq & Hl & Hh); [lia | lra | lra |].
  exists q'. split; [exact Hq|].
  set (x := pow2 (K - 53)) in *. split; lra.
Qed.

(** On the samples, sums, differences, products and quotients of the model
    are those of the binary64 arithmetic of the machine. *)
Remark double_agrees_with_binary64 :
  forallb (fun x => forallb (agree x) binary64_samples) binary64_samples = true.
Proof. vm_compute. reflexivity. Qed.

Lemma double_24250 : double 24250 = Fin 24250.
Proof. vm_compute. reflexivity. Qed.

(** Division by a number of magnitude 1 or more does not enlarge. *)
Lemma Qdiv_within (d pc B : Q) :
  1 <= Qabs pc -> - B <= d -> d <= B -> - B <= d / pc /\ d / pc <= B.
Proof.
  intros Hpc Hlow Hhigh.
  apply Qabs_Qle_condition.
  assert (Hd : Qabs d <= B) by (apply Qabs_Qle_condition; split; assumption).
  unfold Qdiv. rewrite Qabs_Qmult, Qabs_Qinv.
  pose proof (Qabs_nonneg d) as Hd0.
  assert (Hinv : / Qabs pc <= 1).
  { apply Qle_shift_inv_r; lra. }
  assert (Hinv0 : 0 <= / Qabs pc).
  { apply Qinv_le_0_compat. lra. }
  eapply Qle_trans; [|exact Hd].
  rewrite (Qmult_comm (Qabs d)).
  rewrite <- (Qmult_1_l (Qabs d)) at 2.
  apply Qmult_le_compat_r; assumption.
Qed.

(** ** The numbers of a mock quote *)

Lemma add_Fin (x y : Q) : add (Fin x) (Fin y) = double (x + y).
Proof. reflexivity. Qed.

Lemma sub_Fin (x y : Q) : sub (Fin x) (Fin y) = double (x + Qred (- y)).
Proof. reflexivity. Qed.

Lemma mul_Fin (x y : Q) : mul (Fin x) (Fin y) = double (x * y).
Proof. reflexivity. Qed.

Lemma div_Fin (x y : Q) : 1 <= Qabs y -> div (Fin x) (Fin y) = double (x / y).
Proof.
  intros Hy. unfold div, is_zero.
  destruct (Qeq_bool y 0) eqn:Hzero; [|reflexivity].
  exfalso. apply Qeq_bool_iff in Hzero. rewrite Hzero in Hy.
  apply (Qle_not_lt _ _ Hy). reflexivity.
Qed.

Ltac eval_pow2 :=
  repeat match goal with
         | H : context [pow2 ?k] |- _ =>
             let v := eval vm_compute in (pow2 k) in change (pow2 k) with v in H
         | |- context [pow2 ?k] =>
             let v := eval vm_compute in (pow2 k) in change (pow2 k) with v
         end.

(** One rounding to a double of magnitude at most [2^K]: the result of
    rounding [q] is named [x], and the goal goes on with it. *)
Ltac rounded K q x :=
  let E := fresh "E" x in
  let L := fresh "L" x in
  let U := fresh "U" x in
  destruct (double_within K q) as (x & E & L & U);
  [lia | eval_pow2; lra | eval_pow2; lra | rewrite E; clear E; eval_pow2].

Ltac fixed K q x :=
  let E := fresh "E" x in
  let L := fresh "L" x in
  let U := fresh "U" x in
  destruct (toFixed2_within K q) as (x & E & L & U);
  [lia | eval_pow2; lra | eval_pow2; lra | rewrite E; clear E; eval_pow2].

(** [basePrice + (Math.random() - 0.5) * 200] *)
Lemma mock_currentPrice (bp r : Q) :
  - (1000000) <= bp -> bp <= 1000000 -> 0 <= r < 1 ->
  exists cp,
    add (Fin bp) (mul (sub (double r) (Fin 0.5)) (Fin 200)) = Fin cp
    /\ - (1 # 1000000000) <= cp - (bp + (r - (1 # 2)) * 200)
    /\ cp - (bp + (r - (1 # 2)) * 200) <= 1 # 1000000000.
Proof.
  intros Hlow Hhigh [Hr0 Hr1].
  rounded 0%Z r r1.
  rewrite sub_Fin. change (Qred (- (0.5))) with (- (1 # 2)).
  rounded 0%Z (r1 + - (1 # 2)) a.
  rewrite mul_Fin. rounded 7%Z (a * 200) v.
  rewrite add_Fin. rounded 20%Z (bp + v) cp.
  exists cp. split; [reflexivity|]. split; lra.
Qed.

(** The three fields computed from the price and the previous close. *)
Lemma percent_bound (pc d change qd m changePercent e f : Q) :
  1 <= Qabs pc ->
  Qabs (change - d) <= (1 # 200) + e ->
  Qabs (qd - d / pc) <= e ->
  Qabs (m - qd * 100) <= f ->
  Qabs (changePercent - m) <= (1 # 200) + f ->
  Qabs (changePercent - change / pc * 100)
  <= (1 # 200) + (1 # 2) / Qabs pc + (2 * f + 200 * e).
Proof.
  intros Hpc Hchange Hq Hm Hpercent.
  assert (Hne : ~ pc == 0).
  { intros H0. rewrite H0 in Hpc. apply (Qle_not_lt _ _ Hpc). reflexivity. }
  assert (He : 0 <= e).
  { pose proof (Qabs_nonneg (qd - d / pc)). lra. }
  set (u := / Qabs pc).
  assert (Hu1 : u <= 1) by (apply Qle_shift_inv_r; lra).
  assert (Hu0 : 0 <= u) by (apply Qinv_le_0_compat; lra).
  assert (Hlast : Qabs ((d - change) * (100 / pc)) <= (1 # 2) * u + 100 * e).
  { rewrite Qabs_Qmult.
    assert (Hscale : Qabs (100 / pc) == 100 * u).
    { unfold Qdiv. rewrite Qabs_Qmult, Qabs_Qinv. reflexivity. }
    rewrite Hscale.
    setoid_replace (d - change) with (- (change - d)) by ring.
    rewrite Qabs_opp.
    eapply Qle_trans.
    { apply Qmult_le_compat_r; [exact Hchange | lra]. }
    assert (Heu : u * e <= 1 * e) by (apply Qmult_le_compat_r; assumption).
    lra. }
  setoid_replace (changePercent - change / pc * 100)
    with ((changePercent - m) + (m - qd * 100) + 100 * (qd - d / pc)
          + (d - change) * (100 / pc))
    by (field; exact Hne).
  change ((1 # 2) / Qabs pc) with ((1 # 2) * u).
  set (t := (d - change) * (100 / pc)) in *.
  set (x := qd - d / pc) in *.
  apply Qabs_Qle_condition in Hq, Hm, Hpercent, Hlast.
  apply Qabs_Qle_condition. split; lra.
Qed.

Lemma mock_fields (cp pc : Q) :
  - (1000101) <= cp -> cp <= 1000101 ->
  1 <= Qabs pc -> Qabs pc <= 1000000 ->
  exists price change changePercent,
    toFixed2 (Fin cp) = Fin price
    /\ toFixed2 (sub (Fin cp) (Fin pc)) = Fin change
    /\ toFixed2 (mul (div (sub (Fin cp) (Fin pc)) (Fin pc)) (Fin 100)) = Fin changePercent
    /\ Qabs (price - cp) <= (1 # 200) + (1 # 1000000000)
    /\ Qabs (change - (price - pc)) <= (1 # 100) + (1 # 1000000)
    /\ Qabs (changePercent - change / pc * 100)
       <= (1 # 200) + (1 # 2) / Qabs pc + (1 # 1000000).
Proof.
  intros Hlow Hhigh Hpc1 Hpc2.
  apply Qabs_Qle_condition in Hpc2. destruct Hpc2 as [Hpcl Hpch].
  pose proof (Qred_correct (- pc)) as Hneg.
  fixed 20%Z cp price.
  rewrite sub_Fin. rounded 21%Z (cp + Qred (- pc)) d.
  fixed 21%Z d change.
  rewrite (div_Fin d pc Hpc1).
  destruct (Qdiv_within d pc 2000102 Hpc1) as [Hql Hqh]; [lra | lra |].
  rounded 21%Z (d / pc) qd.
  rewrite mul_Fin. rounded 28%Z (qd * 100) m.
  fixed 28%Z m changePercent.
  exists price, change, changePercent.
  split; [reflexivity|]. split; [reflexivity|]. split; [reflexivity|].
  split; [apply Qabs_Qle_condition; split; lra|].
  split; [apply Qabs_Qle_condition; split; lra|].
  eapply Qle_trans.
  { apply (percent_bound pc d change qd m changePercent
             (1 # 4294967296) (1 # 33554432) Hpc1);
      apply Qabs_Qle_condition; split; lra. }
  apply Qplus_le_r. discriminate.
Qed.

(** High, low and open lie around the price as the draws place them. *)
Lemma mock_range (cp r_high r_low r_open : Q) :
  - (1000101) <= cp -> cp <= 1000101 ->
  0 <= r_high < 1 -> 0 <= r_low < 1 -> 0 <= r_open < 1 ->
  exists high low open,
    toFixed2 (add (add (Fin cp) (Fin 100)) (mul (double r_high) (Fin 50))) = Fin high
    /\ toFixed2 (sub (sub (Fin cp) (Fin 100)) (mul (double r_low) (Fin 50))) = Fin low
    /\ toFixed2 (add (Fin cp) (mul (sub (double r_open) (Fin 0.5)) (Fin 150))) = Fin open
    /\ cp + 99 <= high
    /\ low <= cp - 99
    /\ cp - 76 <= open /\ open <= cp + 76.
Proof.
  intros Hlow Hhigh [Hh0 Hh1] [Hl0 Hl1] [Ho0 Ho1].
  rounded 0%Z r_high rh.
  rewrite mul_Fin. rounded 6%Z (rh * 50) hv.
  rewrite (add_Fin cp 100). rounded 20%Z (cp + 100) c1.
  rewrite add_Fin. rounded 20%Z (c1 + hv) hr.
  fixed 20%Z hr high.
  rounded 0%Z r_low rl.
  rewrite mul_Fin. rounded 6%Z (rl * 50) lv.
  rewrite (sub_Fin cp 100). change (Qred (- (100))) with (- (100)).
  rounded 20%Z (cp + - (100)) c2.
  rewrite sub_Fin. pose proof (Qred_correct (- lv)) as Hneg.
  rounded 20%Z (c2 + Qred (- lv)) lr.
  fixed 20%Z lr low.
  rounded 0%Z r_open ro.
  rewrite sub_Fin. change (Qred (- (0.5))) with (- (1 # 2)).
  rounded 0%Z (ro + - (1 # 2)) oa.
  rewrite mul_Fin. rounded 7%Z (oa * 150) ov.
  rewrite add_Fin. rounded 20%Z (cp + ov) op.
  fixed 20%Z op open.
  exists high, low, open.
  split; [reflexivity|]. split; [reflexivity|]. split; [reflexivity|].
  repeat split; lra.
Qed.

Local Open Scope Z_scope.

(** ** A tick while the market is open and the live lookup returns null *)

Lemma tryFetchFromFinance_failure (w : world) (s : state) :
  succeeded (fetch_price w (priceRequests s)) = false ->
  tryFetchFromFinance w s = (Ret VNull, asked_price s).
Proof.
  intros Hfail.
  unfold tryFetchFromFinance, try_catch, bind, fetch.
  destruct (fetch_price w (priceRequests s)) as [|[|] body];
    [reflexivity | discriminate Hfail | reflexivity].
Qed.

Lemma stateless_ret {A} (a : A) : stateless (ret a).
Proof. exists (Ret a). reflexivity. Qed.

Lemma stateless_throw {A} (e : exn) : stateless (@throw A e).
Proof. exists (Throw e). reflexivity. Qed.

Lemma stateless_lift {A} (r : result A) : stateless (lift r).
Proof. exists r. reflexivity. Qed.

Lemma stateless_bind {A B} (m : M A) (k : A -> M B) :
  stateless m -> (forall a, stateless (k a)) -> stateless (bind m k).
Proof.
  intros [r Hm] Hk. unfold bind.
  destruct r as [a|e].
  - destruct (Hk a) as [r' Hr']. exists r'. intros w s. rewrite Hm. apply Hr'.
  - exists (Throw e). intros w s. rewrite Hm. reflexivity.
Qed.

Lemma stateless_json (body : option jsval) : stateless (json body).
Proof. destruct body; [apply stateless_ret | apply stateless_throw]. Qed.

Lemma stateless_raw_of (priceData : jsval) (field : string) :
  stateless (raw_of priceData field).
Proof.
  unfold raw_of. apply stateless_bind; [|intros wrapped]; apply stateless_lift.
Qed.

(** What a request followed by stateless steps returns depends on the
    answer to the request only, and nothing but the count of requests
    changes. *)
Lemma try_fetch_answer {A} (k : bool * option jsval -> M A) (h : exn -> M A)
  (w : world) (s s0 : state) :
  (forall r, stateless (k r)) -> (forall e, stateless (h e)) ->
  priceRequests s0 = priceRequests s ->
  try_catch (bind (fetch fetch_price priceRequests set_priceRequests) k) h w s0
  = (fst (try_catch (bind (fetch fetch_price priceRequests set_priceRequests) k) h w s),
     asked_price s0).
Proof.
  intros Hk Hh Hcount.
  unfold try_catch, bind, fetch, asked_price. rewrite Hcount.
  destruct (fetch_price w (priceRequests s)) as [|ok body].
  - destruct (Hh NetworkError) as [r Hr]. rewrite !Hr. reflexivity.
  - destruct (Hk (ok, body)) as [r Hr]. rewrite !Hr.
    destruct r as [a|e]; [reflexivity|].
    destruct (Hh e) as [r' Hr']. rewrite !Hr'. reflexivity.
Qed.

Lemma tryFetchFromFinance_answer (w : world) (s s0 : state) :
  priceRequests s0 = priceRequests s ->
  tryFetchFromFinance w s0 = (fst (tryFetchFromFinance w s), asked_price s0).
Proof.
  intros Hcount. unfold tryFetchFromFinance.
  apply try_fetch_answer; [| intros e; apply stateless_ret | exact Hcount].
  intros [[|] body]; [|apply stateless_ret].
  apply stateless_bind; [apply stateless_json | intros result].
  apply stateless_bind; [apply stateless_lift | intros first].
  apply stateless_bind; [apply stateless_lift | intros priceData].
  repeat (apply stateless_bind; [apply stateless_raw_of | intros ?]).
  apply stateless_ret.
Qed.

Lemma render_numbers (lastTradingDay : bool) (n1 n2 n3 n4 n5 n6 n7 : num)
  (w : world) (s : state) :
  exists s',
    render lastTradingDay
      (quote (VNum n1) (VNum n2) (VNum n3) (VNum n4) (VNum n5) (VNum n6) (VNum n7)) w s
    = (Ret tt, s')
    /\ currentData s'
       = quote (VNum n1) (VNum n2) (VNum n3) (VNum n4) (VNum n5) (VNum n6) (VNum n7)
    /\ hd_error (dom s')
       = Some ("lastUpdated", TimeString (clock w (clockReads s)) lastTradingDay)
    /\ priceHistory s' = push_shift (maxHistoryLength s) (priceHistory s) (VNum n1)
    /\ unhandledRejections s' = unhandledRejections s
    /\ randomDraws s' = randomDraws s.
Proof.
  eexists. split; [reflexivity|].
  repeat split.
Qed.

(** Mock generation at an open market from a last quote whose price and
    close, once defaulted, are the numbers [bp] and [pc]. *)
Lemma generateMockData_run
  (w : world) (s0 : state) (lastPrice lastClose : jsval) (bp pc : num) :
  isMarketOpenAt (clock w (clockReads s0)) = true ->
  get_prop (currentData s0) "price" = Ret lastPrice ->
  get_prop (currentData s0) "close" = Ret lastClose ->
  js_or lastPrice (qnum 24250) = VNum bp ->
  js_or lastClose (VNum bp) = VNum pc ->
  exists s',
    generateMockData w s0 = (Ret tt, s')
    /\ currentData s'
       = mockQuoteOf bp pc
           (double (Math_random w (randomDraws s0)))
           (double (Math_random w (S (randomDraws s0))))
           (double (Math_random w (S (S (randomDraws s0)))))
           (double (Math_random w (S (S (S (randomDraws s0))))))
    /\ hd_error (dom s')
       = Some ("lastUpdated", TimeString (clock w (S (clockReads s0))) false)
    /\ unhandledRejections s' = unhandledRejections s0
    /\ randomDraws s' = (4 + randomDraws s0)%nat.
Proof.
  intros Hopen Hprice Hclose Hbase Hprev.
  unfold generateMockData, isMarketOpen.
  erewrite bind_ret; [|erewrite bind_ret; [|reflexivity]; reflexivity].
  rewrite Hopen. cbn [negb].
  erewrite bind_ret; [|reflexivity].
  erewrite bind_ret;
    [|unfold lift; cbn [currentData set_clockReads]; rewrite Hprice; reflexivity].
  rewrite Hbase.
  erewrite bind_ret; [|reflexivity].
  erewrite bind_ret; [|reflexivity].
  erewrite bind_ret;
    [|unfold lift; cbn [currentData set_clockReads set_randomDraws];
      rewrite Hclose; reflexivity].
  rewrite Hprev.
  erewrite bind_ret; [|reflexivity].
  erewrite bind_ret; [|reflexivity].
  erewrite bind_ret; [|reflexivity].
  erewrite bind_ret; [|reflexivity].
  unfold updateUI.
  match goal with
  | |- context [render false (quote (VNum ?n1) (VNum ?n2) (VNum ?n3) (VNum ?n4)
                                     (VNum ?n5) (VNum ?n6) (VNum ?n7)) w ?st] =>
      destruct (render_numbers false n1 n2 n3 n4 n5 n6 n7 w st)
        as (s' & Hrun & Hcur & Hdom & _ & Hrej & Hdraws)
  end.
  exists s'. split; [exact Hrun|].
  split; [exact Hcur|].
  split; [exact Hdom|].
  split; [exact Hrej|].
  exact Hdraws.
Qed.

(** A tick at an open market whose live lookup returns null runs mock
    generation on the state it found. *)
Lemma open_tick_live_null (w : world) (s : state) :
  (forall n : nat, isMarketOpenAt (clock w n) = true) ->
  fst (tryFetchFromFinance w s) = Ret VNull ->
  fetchNiftyPrice w s
  = not_awaited generateMockData w
      (set_clockReads (S (S (clockReads s))) (asked_price s)).
Proof.
  intros Hopen Hnull.
  unfold fetchNiftyPrice.
  erewrite try_catch_throw; cycle 1.
  { unfold isMarketOpen.
    erewrite bind_ret; [|erewrite bind_ret; [|reflexivity]; reflexivity].
    rewrite Hopen.
    erewrite bind_ret;
      [|rewrite (tryFetchFromFinance_answer w s) by reflexivity;
        rewrite Hnull; reflexivity].
    reflexivity. }
  unfold isMarketOpen.
  erewrite bind_ret; [|erewrite bind_ret; [|reflexivity]; reflexivity].
  rewrite Hopen. reflexivity.
Qed.

Local Open Scope Q_scope.

(** [x || fallback] on numbers of magnitude between 1 and a million, where
    [x] may also be 0. *)
Lemma js_or_magnitude (x fallback : Q) :
  x == 0 \/ 1 <= Qabs x -> Qabs x <= 1000000 ->
  1 <= Qabs fallback -> Qabs fallback <= 1000000 ->
  exists y,
    js_or (VNum (Fin x)) (VNum (Fin fallback)) = VNum (Fin y)
    /\ 1 <= Qabs y /\ Qabs y <= 1000000.
Proof.
  intros Hx Hmax Hf Hfmax. unfold js_or, truthy, is_zero.
  destruct (Qeq_bool x 0) eqn:Hzero; cbn [negb].
  - exists fallback. split; [reflexivity|]. split; assumption.
  - exists x. split; [reflexivity|]. split; [|exact Hmax].
    destruct Hx as [H0|H1]; [|exact H1].
    apply Qeq_bool_iff in H0. rewrite H0 in Hzero. discriminate.
Qed.

(** The tick that makes a mock quote, and the numbers it starts from. *)
Lemma mock_tick (w : world) (s : state) (p c : Q) :
  (forall n : nat, isMarketOpenAt (clock w n) = true) ->
  fst (tryFetchFromFinance w s) = Ret VNull ->
  get_prop (currentData s) "price" = Ret (VNum (Fin p)) ->
  get_prop (currentData s) "close" = Ret (VNum (Fin c)) ->
  p == 0 \/ 1 <= Qabs p -> Qabs p <= 1000000 ->
  c == 0 \/ 1 <= Qabs c -> Qabs c <= 1000000 ->
  exists s' basePrice previousClose,
    js_or (VNum (Fin p)) (qnum 24250) = VNum (Fin basePrice)
    /\ js_or (VNum (Fin c)) (VNum (Fin basePrice)) = VNum (Fin previousClose)
    /\ Qabs basePrice <= 1000000
    /\ 1 <= Qabs previousClose /\ Qabs previousClose <= 1000000
    /\ fetchNiftyPrice w s = (Ret tt, s')
    /\ currentData s'
       = mockQuoteOf (Fin basePrice) (Fin previousClose)
           (double (Math_random w (randomDraws s)))
           (double (Math_random w (S (randomDraws s))))
           (double (Math_random w (S (S (randomDraws s)))))
           (double (Math_random w (S (S (S (randomDraws s))))))
    /\ hd_error (dom s')
       = Some ("lastUpdated", TimeString (clock w (S (S (S (clockReads s))))) false)
    /\ unhandledRejections s' = unhandledRejections s
    /\ randomDraws s' = (4 + randomDraws s)%nat.
Proof.
  intros Hopen Hnull Hprice Hclose Hp Hpmax Hc Hcmax.
  destruct (js_or_magnitude p 24250 Hp Hpmax) as (bp & Hbase & Hbp1 & Hbpmax);
    [discriminate | discriminate |].
  destruct (js_or_magnitude c bp Hc Hcmax Hbp1 Hbpmax) as (pc & Hprev & Hpc1 & Hpcmax).
  set (s0 := set_clockReads (S (S (clockReads s))) (asked_price s)).
  destruct (generateMockData_run w s0 (VNum (Fin p)) (VNum (Fin c)) (Fin bp) (Fin pc)
              (Hopen _) Hprice Hclose)
    as (s' & Hrun & Hcur & Hdom & Hrej & Hdraws).
  { unfold qnum. rewrite double_24250. exact Hbase. }
  { exact Hprev. }
  exists s', bp, pc.
  split; [unfold qnum; rewrite double_24250; exact Hbase|].
  split; [exact Hprev|].
  split; [exact Hbpmax|]. split; [exact Hpc1|]. split; [exact Hpcmax|].
  split.
  { rewrite (open_tick_live_null w s Hopen Hnull). fold s0.
    unfold not_awaited. rewrite Hrun. reflexivity. }
  split; [exact Hcur|].
  split; [exact Hdom|].
  split; [exact Hrej | exact Hdraws].
Qed.

(** C4, as the specification states it, fails already on the first tick
    after the page loads, at a market-open time with the live request
    rejected and a draw of 0.75: the quote shown has price 24300, change 50
    and previous close 24250, and its changePercent is 0.21, the rounding of
    0.2061..., which is further than 1e-6 from 50 / 24250 * 100. *)
Lemma mock_quote_not_within_1e6 :
  fetchNiftyPrice (world_remote_down tuesday_0915) initial_state
  = (Ret tt,
     snd (fetchNiftyPrice (world_remote_down tuesday_0915) initial_state))
  /\ get_prop (currentData (snd (fetchNiftyPrice (world_remote_down tuesday_0915)
                                                 initial_state))) "changePercent"
     = Ret (qnum 0.21)
  /\ ~ consistentWithin (1 # 1000000)
         (currentData (snd (fetchNiftyPrice (world_remote_down tuesday_0915)
                                            initial_state))).
Proof.
  split; [vm_compute; reflexivity|].
  split; [vm_compute; reflexivity|].
  intros (price & change & changePercent & previousClose
          & Hprice & Hchange & Hpercent & Hclose & _ & Hbound).
  vm_compute in Hprice, Hchange, Hpercent, Hclose.
  injection Hchange as <-. injection Hpercent as <-. injection Hclose as <-.
  vm_compute in Hbound. apply Hbound. reflexivity.
Qed.

(** C4 (amended). At a market-open time, when the live lookup returns
    [null] (the request is rejected, answered without success, or answered
    with a body that cannot be read or lacks an entry of the quote), the
    last known price and close are numbers that are 0 or of magnitude
    between 1 and a million, and [Math.random] draws from [0, 1), the tick
    shows a mock quote whose fields are rounded to two decimals: its change
    is within 0.01 + 1e-6 of price - previousClose, its changePercent is
    within 0.005 + 0.5 / |previousClose| + 1e-6 of
    change / previousClose * 100 (the 1e-6 covers the rounding of the
    arithmetic on doubles), previousClose is not 0, and the quote is not
    marked as last-trading-day data (no such field, no such suffix on the
    time stamp). *)
Theorem mock_quote_consistent_up_to_rounding (w : world) (s : state) (p c : Q) :
  (forall n : nat, isMarketOpenAt (clock w n) = true) ->
  fst (tryFetchFromFinance w s) = Ret VNull ->
  get_prop (currentData s) "price" = Ret (VNum (Fin p)) ->
  get_prop (currentData s) "close" = Ret (VNum (Fin c)) ->
  p == 0 \/ 1 <= Qabs p -> Qabs p <= 1000000 ->
  c == 0 \/ 1 <= Qabs c -> Qabs c <= 1000000 ->
  (forall n : nat, 0 <= Math_random w n < 1) ->
  exists s' price change changePercent high low open previousClose now,
    fetchNiftyPrice w s = (Ret tt, s')
    /\ currentData s'
       = quote (VNum (Fin price)) (VNum (Fin change)) (VNum (Fin changePercent))
               high low open (VNum (Fin previousClose))
    /\ ~ previousClose == 0
    /\ Qabs (change - (price - previousClose)) <= (1 # 100) + (1 # 1000000)
    /\ Qabs (changePercent - change / previousClose * 100)
       <= (1 # 200) + (1 # 2) / Qabs previousClose + (1 # 1000000)
    /\ hd_error (dom s') = Some ("lastUpdated", TimeString now false)
    /\ get_prop (currentData s') "isLastTradingDay" = Ret VUndef
    /\ unhandledRejections s' = unhandledRejections s.
Proof.
  intros Hopen Hnull Hprice Hclose Hp Hpmax Hc Hcmax Hdraws.
  destruct (mock_tick w s p c Hopen Hnull Hprice Hclose Hp Hpmax Hc Hcmax)
    as (s' & bp & pc & _ & _ & Hbpmax & Hpc1 & Hpcmax
        & Hrun & Hcur & Hdom & Hrej & _).
  apply Qabs_Qle_condition in Hbpmax. destruct Hbpmax as [Hbpl Hbph].
  pose proof (Hdraws (randomDraws s)) as Hr.
  destruct (mock_currentPrice bp _ Hbpl Hbph Hr) as (cp & Hcp & Hcpl & Hcph).
  destruct (mock_fields cp pc) as (price & change & changePercent
                                   & Eprice & Echange & Epercent & _ & Hone & Htwo);
    [lra | lra | exact Hpc1 | exact Hpcmax |].
  assert (Hquote :
    currentData s'
    = quote (VNum (Fin price)) (VNum (Fin change)) (VNum (Fin changePercent))
        (VNum (toFixed2 (add (add (Fin cp) (Fin 100))
                             (mul (double (Math_random w (S (randomDraws s))))
                                  (Fin 50)))))
        (VNum (toFixed2 (sub (sub (Fin cp) (Fin 100))
                             (mul (double (Math_random w (S (S (randomDraws s)))))
                                  (Fin 50)))))
        (VNum (toFixed2 (add (Fin cp)
                             (mul (sub (double (Math_random w
                                                  (S (S (S (randomDraws s))))))
                                       (Fin 0.5))
                                  (Fin 150)))))
        (VNum (Fin pc))).
  { rewrite Hcur. unfold mockQuoteOf. cbv zeta.
    rewrite Hcp, Eprice, Echange, Epercent. reflexivity. }
  exists s'. do 8 eexists.
  split; [exact Hrun|].
  split; [exact Hquote|].
  split.
  { intros H0. rewrite H0 in Hpc1. apply (Qle_not_lt _ _ Hpc1). reflexivity. }
  split; [exact Hone|].
  split; [exact Htwo|].
  split; [exact Hdom|].
  split; [rewrite Hquote; reflexivity|].
  exact Hrej.
Qed.

Lemma mock_quote_consistent_up_to_rounding_witness :
  exists s' price change changePercent high low open previousClose now,
    fetchNiftyPrice (world_remote_down tuesday_0915) initial_state = (Ret tt, s')
    /\ currentData s'
       = quote (VNum (Fin price)) (VNum (Fin change)) (VNum (Fin changePercent))
               high low open (VNum (Fin previousClose))
    /\ ~ previousClose == 0
    /\ Qabs (change - (price - previousClose)) <= (1 # 100) + (1 # 1000000)
    /\ Qabs (changePercent - change / previousClose * 100)
       <= (1 # 200) + (1 # 2) / Qabs previousClose + (1 # 1000000)
    /\ hd_error (dom s') = Some ("lastUpdated", TimeString now false)
    /\ get_prop (currentData s') "isLastTradingDay" = Ret VUndef
    /\ unhandledRejections s' = unhandledRejections initial_state.
Proof.
  apply (mock_quote_consistent_up_to_rounding
           (world_remote_down tuesday_0915) initial_state 0 0).
  - intros n. reflexivity.
  - reflexivity.
  - reflexivity.
  - reflexivity.
  - left. reflexivity.
  - discriminate.
  - left. reflexivity.
  - discriminate.
  - intros n. split; [discriminate | reflexivity].
Defined.

Local Open Scope Z_scope.

(** * Further properties of the script *)

Local Open Scope Z_scope.

(** ** Frames *)

Section Keeps.

Variable R : state -> state -> Prop.
Hypothesis R_refl : forall s, R s s.
Hypothesis R_trans : forall s1 s2 s3, R s1 s2 -> R s2 s3 -> R s1 s3.

Variable w : world.

Lemma keeps_ret {A} (a : A) : keeps R w (ret a).
Proof. intros s. apply R_refl. Qed.

Lemma keeps_throw {A} (e : exn) : keeps R w (@throw A e).
Proof. intros s. apply R_refl. Qed.

Lemma keeps_lift {A} (r : result A) : keeps R w (lift r).
Proof. intros s. apply R_refl. Qed.

Lemma keeps_gets {A} (f : state -> A) : keeps R w (gets f).
Proof. intros s. apply R_refl. Qed.

Lemma keeps_modify (f : state -> state) :
  (forall s, R s (f s)) -> keeps R w (modify f).
Proof. intros Hf s. apply Hf. Qed.

Lemma keeps_bind {A B} (m : M A) (k : A -> M B) :
  keeps R w m -> (forall a, keeps R w (k a)) -> keeps R w (bind m k).
Proof.
  intros Hm Hk s. unfold bind.
  specialize (Hm s).
  destruct (m w s) as [[a|e] s1]; cbn [snd] in *.
  - eapply R_trans; [exact Hm | apply Hk].
  - exact Hm.
Qed.

Lemma keeps_try_catch {A} (m : M A) (h : exn -> M A) :
  keeps R w m -> (forall e, keeps R w (h e)) -> keeps R w (try_catch m h).
Proof.
  intros Hm Hh s. unfold try_catch.
  specialize (Hm s).
  destruct (m w s) as [[a|e] s1]; cbn [snd] in *.
  - exact Hm.
  - eapply R_trans; [exact Hm | apply Hh].
Qed.

Lemma keeps_not_awaited (m : M unit) :
  (forall l s, R s (set_unhandledRejections l s)) ->
  keeps R w m -> keeps R w (not_awaited m).
Proof.
  intros Hset Hm s. unfold not_awaited.
  specialize (Hm s).
  destruct (m w s) as [[a|e] s1]; cbn [snd] in *.
  - exact Hm.
  - eapply R_trans; [exact Hm | apply Hset].
Qed.

Hypothesis R_clock : forall n s, R s (set_clockReads n s).
Hypothesis R_data : forall v s, R s (set_currentData v s).
Hypothesis R_dom : forall d s, R s (set_dom d s).
Hypothesis R_push :
  forall p s,
    R s (set_priceHistory (push_shift (maxHistoryLength s) (priceHistory s) p) s).

Lemma keeps_isMarketOpen : keeps R w isMarketOpen.
Proof.
  unfold isMarketOpen. apply keeps_bind; [|intros now; apply keeps_ret].
  intros s. apply R_clock.
Qed.

(** A branch on [isMarketOpen()] in a world whose clock always gives the
    same answer. *)
Lemma keeps_when_market {A} (b : bool) (k : bool -> M A) :
  (forall n, isMarketOpenAt (clock w n) = b) ->
  keeps R w (k b) -> keeps R w (bind isMarketOpen k).
Proof.
  intros Hb Hk s.
  unfold bind, isMarketOpen, new_Date, ret. cbn. rewrite Hb.
  eapply R_trans; [apply R_clock | apply Hk].
Qed.

Lemma keeps_localized (data : jsval) (field : string) : keeps R w (localized data field).
Proof.
  unfold localized. apply keeps_bind; [apply keeps_lift|].
  intros v. destruct (toLocaleString_throws v); [apply keeps_throw | apply keeps_ret].
Qed.

Lemma keeps_nonNegative (data : jsval) (field : string) :
  keeps R w (nonNegative data field).
Proof.
  unfold nonNegative.
  apply keeps_bind; [apply keeps_lift|]. intros v.
  apply keeps_bind; [apply keeps_lift|]. intros n.
  apply keeps_ret.
Qed.

Lemma keeps_setText (id : string) (t : text) : keeps R w (setText id t).
Proof. unfold setText. apply keeps_modify. intros s. apply R_dom. Qed.

Lemma keeps_render (lastTradingDay : bool) (data : jsval) :
  keeps R w (render lastTradingDay data).
Proof.
  unfold render, addToHistory, updateChart.
  repeat first
    [ apply keeps_ret
    | apply keeps_lift
    | apply keeps_localized
    | apply keeps_nonNegative
    | apply keeps_setText
    | apply keeps_modify; intros s; first [apply R_data | apply R_push]
    | intros s; apply R_clock
    | apply keeps_bind; [|intros ?] ].
Qed.

Hypothesis R_priceRequests : forall n s, R s (set_priceRequests n s).
Hypothesis R_statsRequests : forall n s, R s (set_statsRequests n s).
Hypothesis R_slot : forall t s, R s (set_localStorage t s).
Hypothesis R_random : forall n s, R s (set_randomDraws n s).
Hypothesis R_unhandled : forall l s, R s (set_unhandledRejections l s).

Lemma keeps_fetch (endpoint : world -> nat -> response)
  (count : state -> nat) (set_count : nat -> state -> state) :
  (forall n s, R s (set_count n s)) ->
  keeps R w (fetch endpoint count set_count).
Proof.
  intros Hcount s. unfold fetch.
  destruct (endpoint w (count s)); cbn [snd]; apply Hcount.
Qed.

Lemma keeps_json (body : option jsval) : keeps R w (json body).
Proof. destruct body; [apply keeps_ret | apply keeps_throw]. Qed.

Lemma keeps_raw_of (priceData : jsval) (field : string) :
  keeps R w (raw_of priceData field).
Proof.
  unfold raw_of. apply keeps_bind; [apply keeps_lift|]. intros v. apply keeps_lift.
Qed.

Lemma keeps_raw_or (data : jsval) (module field : string) (fallback : Q) :
  keeps R w (raw_or data module field fallback).
Proof.
  unfold raw_or. apply keeps_bind; [apply keeps_lift|]. intros v. apply keeps_ret.
Qed.

Lemma keeps_tryFetchFromFinance : keeps R w tryFetchFromFinance.
Proof.
  unfold tryFetchFromFinance.
  apply keeps_try_catch; [|intros e; apply keeps_ret].
  apply keeps_bind; [apply keeps_fetch; exact R_priceRequests|].
  intros [[|] body]; [|apply keeps_ret].
  repeat first
    [ apply keeps_ret
    | apply keeps_lift
    | apply keeps_json
    | apply keeps_raw_of
    | apply keeps_bind; [|intros ?] ].
Qed.

Lemma keeps_fetchLastTradingDayFromAPI : keeps R w fetchLastTradingDayFromAPI.
Proof.
  unfold fetchLastTradingDayFromAPI.
  apply keeps_try_catch; [|intros e; apply keeps_ret].
  apply keeps_bind; [apply keeps_fetch; exact R_statsRequests|].
  intros [[|] body]; [|apply keeps_ret].
  repeat first
    [ apply keeps_ret
    | apply keeps_lift
    | apply keeps_json
    | apply keeps_raw_or
    | apply keeps_modify; intros s; apply R_slot
    | apply keeps_bind; [|intros ?] ].
Qed.

Lemma keeps_getLastTradingDayData : keeps R w getLastTradingDayData.
Proof.
  unfold getLastTradingDayData.
  apply keeps_try_catch; [|intros e; apply keeps_ret].
  apply keeps_bind; [apply keeps_gets|].
  intros [text|]; [|apply keeps_fetchLastTradingDayFromAPI].
  destruct (hasText (Some text));
    [apply keeps_lift | apply keeps_fetchLastTradingDayFromAPI].
Qed.

Lemma keeps_random : keeps R w random.
Proof. intros s. apply R_random. Qed.

Lemma keeps_plus_variation (basePrice : jsval) (variation : num) :
  keeps R w (plus_variation basePrice variation).
Proof.
  destruct basePrice; cbn [plus_variation];
    first [apply keeps_ret | apply keeps_throw].
Qed.

(** The branch of [generateMockData] for an open market. *)
Lemma keeps_mock_open :
  keeps R w
    (data <- gets currentData ;;
     lastPrice <- lift (get_prop data "price") ;;
     let basePrice := js_or lastPrice (qnum 24250) in
     r <- random ;;
     let variation := mul (sub r (Fin 0.5)) (Fin 200) in
     currentPrice <- plus_variation basePrice variation ;;
     lastClose <- lift (get_prop data "close") ;;
     let previousClose := js_or lastClose basePrice in
     previousCloseNumber <- lift (ToNumber previousClose) ;;
     let change := sub currentPrice previousCloseNumber in
     let changePercent := mul (div change previousCloseNumber) (Fin 100) in
     r_high <- random ;;
     r_low <- random ;;
     r_open <- random ;;
     let newData :=
       quote (VNum (toFixed2 currentPrice))
             (VNum (toFixed2 change))
             (VNum (toFixed2 changePercent))
             (VNum (toFixed2 (add (add currentPrice (Fin 100)) (mul r_high (Fin 50)))))
             (VNum (toFixed2 (sub (sub currentPrice (Fin 100)) (mul r_low (Fin 50)))))
             (VNum (toFixed2 (add currentPrice (mul (sub r_open (Fin 0.5)) (Fin 150)))))
             previousClose in
     updateUI newData).
Proof.
  cbv zeta. unfold updateUI.
  repeat match goal with
         | |- keeps _ _ (bind _ _) => apply keeps_bind; [|intros ?]
         | |- keeps _ _ (gets _) => apply keeps_gets
         | |- keeps _ _ (lift _) => apply keeps_lift
         | |- keeps _ _ random => apply keeps_random
         | |- keeps _ _ (plus_variation _ _) => apply keeps_plus_variation
         | |- keeps _ _ (render _ _) => apply keeps_render
         end.
Qed.

Lemma keeps_closed_branch :
  keeps R w (lastTradingData <- getLastTradingDayData ;;
             updateUIWithLastTradingDay lastTradingData).
Proof.
  apply keeps_bind; [apply keeps_getLastTradingDayData|].
  intros data. apply keeps_render.
Qed.

Lemma keeps_generateMockData : keeps R w generateMockData.
Proof.
  unfold generateMockData.
  apply keeps_bind; [apply keeps_isMarketOpen|].
  intros [|]; cbn [negb]; [apply keeps_mock_open | apply keeps_closed_branch].
Qed.

Lemma keeps_live_branch :
  keeps R w (data <- tryFetchFromFinance ;;
             if truthy data
             then updateUI data
             else throw (Error "Live data fetch failed")).
Proof.
  apply keeps_bind; [apply keeps_tryFetchFromFinance|].
  intros data. destruct (truthy data); [apply keeps_render | apply keeps_throw].
Qed.

Lemma keeps_fetchNiftyPrice : keeps R w fetchNiftyPrice.
Proof.
  unfold fetchNiftyPrice.
  apply keeps_try_catch.
  - apply keeps_bind; [apply keeps_isMarketOpen|].
    intros [|]; [apply keeps_live_branch | apply keeps_closed_branch].
  - intros e. apply keeps_bind; [apply keeps_isMarketOpen|].
    intros [|]; cbn [negb];
      [apply keeps_not_awaited; [exact R_unhandled | apply keeps_generateMockData]
      | apply keeps_closed_branch].
Qed.

Lemma keeps_ticks (n : nat) : keeps R w (ticks n).
Proof.
  induction n as [|n IH]; cbn [ticks]; [apply keeps_ret|].
  apply keeps_bind; [|intros _; exact IH].
  apply keeps_not_awaited; [exact R_unhandled | apply keeps_fetchNiftyPrice].
Qed.

(** While every reading of the clock finds the market open. *)
Lemma keeps_fetchNiftyPrice_open :
  (forall n, isMarketOpenAt (clock w n) = true) ->
  keeps R w fetchNiftyPrice.
Proof.
  intros Hopen. unfold fetchNiftyPrice.
  apply keeps_try_catch.
  - apply (keeps_when_market true); [exact Hopen | apply keeps_live_branch].
  - intros e. apply (keeps_when_market true); [exact Hopen|]. cbn [negb].
    apply keeps_not_awaited; [exact R_unhandled|].
    unfold generateMockData.
    apply (keeps_when_market true); [exact Hopen|]. cbn [negb].
    apply keeps_mock_open.
Qed.

(** While every reading of the clock finds the market closed. *)
Lemma keeps_fetchNiftyPrice_closed :
  (forall n, isMarketOpenAt (clock w n) = false) ->
  keeps R w fetchNiftyPrice.
Proof.
  intros Hclosed. unfold fetchNiftyPrice.
  apply keeps_try_catch.
  - apply (keeps_when_market false); [exact Hclosed | apply keeps_closed_branch].
  - intros e. apply (keeps_when_market false); [exact Hclosed|]. cbn [negb].
    apply keeps_closed_branch.
Qed.

End Keeps.

Lemma same_refl {B} (f : state -> B) (s : state) : same f s s.
Proof. reflexivity. Qed.

Lemma same_trans {B} (f : state -> B) (s1 s2 s3 : state) :
  same f s1 s2 -> same f s2 s3 -> same f s1 s3.
Proof. unfold same. intros H12 H23. rewrite H23. exact H12. Qed.

(** ** What a tick leaves alone *)

(** X1. While the market is open, a tick neither reads nor writes the
    last-session cache: the local-storage slot is as it was and no request
    goes to the historical endpoint, whatever the live request brings and
    whatever the state. *)
Theorem open_tick_leaves_cache_alone (w : world) (s : state) :
  (forall n : nat, isMarketOpenAt (clock w n) = true) ->
  localStorage (snd (fetchNiftyPrice w s)) = localStorage s
  /\ statsRequests (snd (fetchNiftyPrice w s)) = statsRequests s.
Proof.
  intros Hopen.
  pose proof (keeps_fetchNiftyPrice_open
                (same (fun st => (localStorage st, statsRequests st)))
                (same_refl _) (same_trans _) w
                (fun _ _ => eq_refl) (fun _ _ => eq_refl) (fun _ _ => eq_refl)
                (fun _ _ => eq_refl) (fun _ _ => eq_refl) (fun _ _ => eq_refl)
                (fun _ _ => eq_refl) Hopen s) as Hsame.
  unfold same in Hsame. injection Hsame as Hslot Hstats.
  split; assumption.
Qed.

Lemma open_tick_leaves_cache_alone_witness :
  localStorage (snd (fetchNiftyPrice (world_remote_down tuesday_0915)
                                     (with_slot Garbled initial_state)))
  = localStorage (with_slot Garbled initial_state)
  /\ statsRequests (snd (fetchNiftyPrice (world_remote_down tuesday_0915)
                                         (with_slot Garbled initial_state)))
     = statsRequests (with_slot Garbled initial_state).
Proof.
  apply (open_tick_leaves_cache_alone (world_remote_down tuesday_0915)
                                      (with_slot Garbled initial_state)).
  intros n. reflexivity.
Defined.

(** X2. While the market is closed, a tick never asks the live endpoint,
    never draws a random number (no mock quote is made up) and leaves no
    promise rejected behind its back, whatever the cache and the historical
    endpoint bring. *)
Theorem closed_tick_makes_no_mock (w : world) (s : state) :
  (forall n : nat, isMarketOpenAt (clock w n) = false) ->
  priceRequests (snd (fetchNiftyPrice w s)) = priceRequests s
  /\ randomDraws (snd (fetchNiftyPrice w s)) = randomDraws s
  /\ unhandledRejections (snd (fetchNiftyPrice w s)) = unhandledRejections s.
Proof.
  intros Hclosed.
  pose proof (keeps_fetchNiftyPrice_closed
                (same (fun st => (priceRequests st, randomDraws st,
                                  unhandledRejections st)))
                (same_refl _) (same_trans _) w
                (fun _ _ => eq_refl) (fun _ _ => eq_refl) (fun _ _ => eq_refl)
                (fun _ _ => eq_refl) (fun _ _ => eq_refl) (fun _ _ => eq_refl)
                Hclosed s) as Hsame.
  unfold same in Hsame. injection Hsame as Hprice Hrandom Hrejected.
  repeat split; assumption.
Qed.

Lemma closed_tick_makes_no_mock_witness :
  priceRequests (snd (fetchNiftyPrice (world_remote_down sunday_0915) initial_state))
  = priceRequests initial_state
  /\ randomDraws (snd (fetchNiftyPrice (world_remote_down sunday_0915) initial_state))
     = randomDraws initial_state
  /\ unhandledRejections (snd (fetchNiftyPrice (world_remote_down sunday_0915)
                                               initial_state))
     = unhandledRejections initial_state.
Proof.
  apply (closed_tick_makes_no_mock (world_remote_down sunday_0915) initial_state).
  intros n. reflexivity.
Defined.

(** X3. While the market is open, [fetchNiftyPrice] never ends in an
    exception: whatever goes wrong with the live request or with showing
    its result is caught, and what mock generation throws reaches nobody. *)
Theorem open_tick_never_rejects (w : world) (s : state) :
  (forall n : nat, isMarketOpenAt (clock w n) = true) ->
  fst (fetchNiftyPrice w s) = Ret tt.
Proof.
  intros Hopen. unfold fetchNiftyPrice, try_catch.
  match goal with
  | |- context [match ?body w s with _ => _ end] =>
      destruct (body w s) as [[[]|e] s1]
  end.
  - reflexivity.
  - unfold bind at 1. unfold isMarketOpen at 1.
    unfold bind at 1. unfold new_Date at 1. cbn [ret].
    rewrite Hopen. cbn [negb].
    unfold not_awaited.
    destruct (generateMockData w (set_clockReads (S (clockReads s1)) s1))
      as [[[]|e'] s2]; reflexivity.
Qed.

Lemma open_tick_never_rejects_witness :
  fst (fetchNiftyPrice (world_remote_down tuesday_0915)
                       (after_closed_tick initial_state)) = Ret tt.
Proof.
  apply (open_tick_never_rejects (world_remote_down tuesday_0915)
                                 (after_closed_tick initial_state)).
  intros n. reflexivity.
Defined.

(** ** The bound on the price history *)

Lemma bounded_push (p : jsval) (s : state) :
  historyBounded s ->
  historyBounded
    (set_priceHistory (push_shift (maxHistoryLength s) (priceHistory s) p) s).
Proof.
  unfold historyBounded. cbn [priceHistory maxHistoryLength set_priceHistory].
  apply push_shift_length.
Qed.

Lemma capacityKept_refl (s : state) : capacityKept s s.
Proof. split; [reflexivity | tauto]. Qed.

Lemma capacityKept_trans (s1 s2 s3 : state) :
  capacityKept s1 s2 -> capacityKept s2 s3 -> capacityKept s1 s3.
Proof.
  intros [Hcap12 Hb12] [Hcap23 Hb23]. split; [congruence | tauto].
Qed.

(** X4. No sequence of invocations of [fetchNiftyPrice] changes
    [maxHistoryLength] or lets the price history grow past it: from a state
    whose history is within the capacity, after any number of ticks in any
    world (open or closed market, any responses, any cache) the history
    still is. *)
Theorem ticks_keep_history_bounded (w : world) (n : nat) (s : state) :
  (List.length (priceHistory s) <= maxHistoryLength s)%nat ->
  maxHistoryLength (snd (ticks n w s)) = maxHistoryLength s
  /\ (List.length (priceHistory (snd (ticks n w s))) <= maxHistoryLength s)%nat.
Proof.
  intros Hbound.
  assert (Hkept : capacityKept s (snd (ticks n w s))).
  { apply (keeps_ticks capacityKept capacityKept_refl capacityKept_trans w);
      try (intros x st; split; [reflexivity | exact (fun H => H)]).
    intros p st. split; [reflexivity | apply bounded_push]. }
  destruct Hkept as [Hcap Hkeep].
  split; [exact Hcap|].
  rewrite <- Hcap. apply Hkeep. exact Hbound.
Qed.

Lemma ticks_keep_history_bounded_witness :
  maxHistoryLength (snd (ticks 30 (world_remote_down tuesday_0915) initial_state))
  = maxHistoryLength initial_state
  /\ (List.length (priceHistory (snd (ticks 30 (world_remote_down tuesday_0915)
                                            initial_state)))
      <= maxHistoryLength initial_state)%nat.
Proof.
  apply (ticks_keep_history_bounded (world_remote_down tuesday_0915) 30 initial_state).
  cbn. lia.
Defined.

(** ** What showing a quote does *)

Lemma renderable_not_nullish (data : jsval) :
  renderable data = true -> nullish data = false.
Proof.
  unfold renderable. destruct (nullish data); [|reflexivity].
  cbn. discriminate.
Qed.

Lemma render_outcome (lastTradingDay : bool) (data : jsval) (w : world) (s : state) :
  (renderable data = true
   /\ render lastTradingDay data w s
      = (Ret tt, rendered lastTradingDay data (clock w (clockReads s)) s))
  \/ (renderable data = false
      /\ exists d,
          render lastTradingDay data w s
          = (Throw TypeError, set_dom d (set_currentData data s))).
Proof.
  destruct (nullish data) eqn:Hnull.
  { right. split; [unfold renderable; rewrite Hnull; reflexivity|].
    exists (dom s). destruct data; try discriminate; reflexivity. }
  assert (Hget : forall k, get_prop data k = Ret (get_opt data k))
    by (intros k; apply get_prop_get_opt; exact Hnull).
  unfold renderable. rewrite Hnull.
  unfold render, localized, nonNegative, ToNumber, setText, addToHistory, updateChart.
  unfold bind, modify, lift, ret, throw, new_Date.
  rewrite !Hget.
  destruct (toLocaleString_throws (get_opt data "price")) eqn:H1;
    [right; split; [reflexivity | eexists; reflexivity]|].
  destruct (ToString_throws (get_opt data "change")) eqn:H2;
    [right; split; [reflexivity | eexists; reflexivity]|].
  destruct (toLocaleString_throws (get_opt data "change")) eqn:H3;
    [right; split; [reflexivity | eexists; reflexivity]|].
  destruct (ToString_throws (get_opt data "changePercent")) eqn:H4;
    [right; split; [reflexivity | eexists; reflexivity]|].
  destruct (toLocaleString_throws (get_opt data "high")) eqn:H5;
    [right; split; [reflexivity | eexists; reflexivity]|].
  destruct (toLocaleString_throws (get_opt data "low")) eqn:H6;
    [right; split; [reflexivity | eexists; reflexivity]|].
  destruct (toLocaleString_throws (get_opt data "open")) eqn:H7;
    [right; split; [reflexivity | eexists; reflexivity]|].
  destruct (toLocaleString_throws (get_opt data "close")) eqn:H8;
    [right; split; [reflexivity | eexists; reflexivity]|].
  left. split; reflexivity.
Qed.

(** X5. [updateUI] and [updateUIWithLastTradingDay] overwrite [currentData]
    with their argument before anything is shown, so also when they fail.
    They fail exactly when the argument is [null] or [undefined] or one of
    the fields they format or compare does not convert, always with a
    TypeError and without appending to the price history; when they succeed
    the price joins the history and the time stamp is the last thing
    written. *)
Theorem showing_overwrites_currentData
  (lastTradingDay : bool) (data : jsval) (w : world) (s : state) :
  let (outcome, s') := render lastTradingDay data w s in
  currentData s' = data
  /\ (renderable data = true ->
      outcome = Ret tt
      /\ priceHistory s'
         = push_shift (maxHistoryLength s) (priceHistory s) (get_opt data "price")
      /\ hd_error (dom s')
         = Some ("lastUpdated", TimeString (clock w (clockReads s)) lastTradingDay))
  /\ (renderable data = false ->
      outcome = Throw TypeError /\ priceHistory s' = priceHistory s).
Proof.
  destruct (render_outcome lastTradingDay data w s)
    as [[Hyes ->]|[Hno [d ->]]].
  - split; [reflexivity|]. split; [intros _; repeat split|].
    rewrite Hyes. discriminate.
  - split; [reflexivity|]. split; [rewrite Hno; discriminate|].
    intros _. split; reflexivity.
Qed.

Lemma isCachedRecord_renderable (v : jsval) :
  isCachedRecord v = true -> renderable v = true.
Proof.
  unfold isCachedRecord, quoteFields. cbn [forallb].
  rewrite !andb_true_iff.
  intros (H1 & H2 & H3 & H4 & H5 & H6 & H7 & _).
  assert (Hnull : nullish v = false).
  { destruct v; try reflexivity; cbn in H1; discriminate. }
  assert (Hfield : forall k,
             match get_prop v k with Ret x => isNumber x | Throw _ => false end = true ->
             toLocaleString_throws (get_opt v k) = false
             /\ ToString_throws (get_opt v k) = false).
  { intros k Hk. rewrite (get_prop_get_opt v k Hnull) in Hk.
    destruct (get_opt v k) as [| | |[| | |]| |]; try discriminate; split; reflexivity. }
  unfold renderable. rewrite Hnull.
  destruct (Hfield _ H1) as [-> _].
  destruct (Hfield _ H2) as [-> ->].
  destruct (Hfield _ H3) as [_ ->].
  destruct (Hfield _ H4) as [-> _].
  destruct (Hfield _ H5) as [-> _].
  destruct (Hfield _ H6) as [-> _].
  destruct (Hfield _ H7) as [-> _].
  reflexivity.
Qed.

(** ** Ticks while the market is closed *)

Lemma getLastTradingDayData_cached (w : world) (s : state) (v : jsval) :
  localStorage s = Some (JsonText v) ->
  getLastTradingDayData w s = (Ret v, s).
Proof.
  intros Hslot. unfold getLastTradingDayData, try_catch, bind, gets.
  rewrite Hslot. reflexivity.
Qed.

Lemma getLastTradingDayData_garbled (w : world) (s : state) :
  localStorage s = Some Garbled ->
  getLastTradingDayData w s = (Ret getDefaultLastTradingDayData, s).
Proof.
  intros Hslot. unfold getLastTradingDayData, try_catch, bind, gets.
  rewrite Hslot. reflexivity.
Qed.

Lemma isMarketOpen_run (w : world) (s : state) :
  isMarketOpen w s
  = (Ret (isMarketOpenAt (clock w (clockReads s))), set_clockReads (S (clockReads s)) s).
Proof. reflexivity. Qed.

(** A tick at a closed market in which the lookup of the last session
    gives [data] and leaves the state [s1]. *)
Lemma closed_tick_with (w : world) (s s1 : state) (data : jsval) :
  isMarketOpenAt (clock w (clockReads s)) = false ->
  getLastTradingDayData w (set_clockReads (S (clockReads s)) s) = (Ret data, s1) ->
  renderable data = true ->
  fetchNiftyPrice w s = (Ret tt, rendered true data (clock w (clockReads s1)) s1).
Proof.
  intros Hclosed Hget Hshow.
  unfold fetchNiftyPrice.
  apply try_catch_ret.
  erewrite bind_ret; [|apply isMarketOpen_run].
  rewrite Hclosed.
  erewrite bind_ret; [|exact Hget].
  unfold updateUIWithLastTradingDay.
  destruct (render_outcome true data w s1) as [[_ Hrun]|[Hno _]];
    [exact Hrun | congruence].
Qed.

(** X6. A tick at a closed market with a cached value that can be shown
    (the seven numbers of a record, say) shows that value as it is, marked
    as last-trading-day data, and sends no request and writes nothing to
    the slot, however old the cached value is. *)
Theorem closed_tick_shows_cached_value (w : world) (s : state) (v : jsval) :
  isMarketOpenAt (clock w (clockReads s)) = false ->
  localStorage s = Some (JsonText v) ->
  renderable v = true ->
  let s1 := set_clockReads (S (clockReads s)) s in
  fetchNiftyPrice w s = (Ret tt, rendered true v (clock w (S (clockReads s))) s1)
  /\ currentData (rendered true v (clock w (S (clockReads s))) s1) = v
  /\ statsRequests (rendered true v (clock w (S (clockReads s))) s1) = statsRequests s
  /\ priceRequests (rendered true v (clock w (S (clockReads s))) s1) = priceRequests s
  /\ localStorage (rendered true v (clock w (S (clockReads s))) s1) = localStorage s.
Proof.
  intros Hclosed Hslot Hshow. cbv zeta.
  split; [|repeat split].
  apply (closed_tick_with w s (set_clockReads (S (clockReads s)) s) v Hclosed);
    [|exact Hshow].
  apply getLastTradingDayData_cached. exact Hslot.
Qed.

Lemma closed_tick_shows_cached_value_witness :
  let s := with_slot (JsonText getDefaultLastTradingDayData) initial_state in
  let w := world_remote_down sunday_0915 in
  let s1 := set_clockReads (S (clockReads s)) s in
  fetchNiftyPrice w s
  = (Ret tt, rendered true getDefaultLastTradingDayData (clock w (S (clockReads s))) s1)
  /\ currentData (rendered true getDefaultLastTradingDayData (clock w (S (clockReads s))) s1)
     = getDefaultLastTradingDayData
  /\ statsRequests (rendered true getDefaultLastTradingDayData
                             (clock w (S (clockReads s))) s1) = statsRequests s
  /\ priceRequests (rendered true getDefaultLastTradingDayData
                             (clock w (S (clockReads s))) s1) = priceRequests s
  /\ localStorage (rendered true getDefaultLastTradingDayData
                            (clock w (S (clockReads s))) s1) = localStorage s.
Proof.
  apply (closed_tick_shows_cached_value
           (world_remote_down sunday_0915)
           (with_slot (JsonText getDefaultLastTradingDayData) initial_state)
           getDefaultLastTradingDayData); reflexivity.
Defined.

(** X7. A cached value that parses but cannot be shown (an empty object, a
    bare number, a record without its price) is never replaced: a tick at a
    closed market ends in a TypeError, with the slot as it was and no
    request sent, so the next tick meets the same value. *)
Theorem closed_tick_stuck_on_unshowable_cache (w : world) (s : state) (v : jsval) :
  (forall n : nat, isMarketOpenAt (clock w n) = false) ->
  localStorage s = Some (JsonText v) ->
  renderable v = false ->
  fst (fetchNiftyPrice w s) = Throw TypeError
  /\ localStorage (snd (fetchNiftyPrice w s)) = Some (JsonText v)
  /\ statsRequests (snd (fetchNiftyPrice w s)) = statsRequests s.
Proof.
  intros Hclosed Hslot Hno.
  set (s1 := set_clockReads (S (clockReads s)) s).
  destruct (render_outcome true v w s1) as [[Hyes _]|[_ [d1 Hrun1]]]; [congruence|].
  set (s2 := set_dom d1 (set_currentData v s1)) in *.
  set (s3 := set_clockReads (S (clockReads s2)) s2).
  destruct (render_outcome true v w s3) as [[Hyes _]|[_ [d2 Hrun2]]]; [congruence|].
  assert (Hrun : fetchNiftyPrice w s = (Throw TypeError, set_dom d2 (set_currentData v s3))).
  { unfold fetchNiftyPrice.
    erewrite try_catch_throw; cycle 1.
    { erewrite bind_ret; [|apply isMarketOpen_run].
      rewrite Hclosed.
      erewrite bind_ret; [|apply (getLastTradingDayData_cached w s1 v); exact Hslot].
      exact Hrun1. }
    erewrite bind_ret; [|apply isMarketOpen_run].
    rewrite Hclosed. cbn [negb].
    erewrite bind_ret; [|apply (getLastTradingDayData_cached w s3 v); exact Hslot].
    exact Hrun2. }
  rewrite Hrun. cbn [fst snd].
  split; [reflexivity|]. split; [exact Hslot | reflexivity].
Qed.

Lemma closed_tick_stuck_on_unshowable_cache_witness :
  fst (fetchNiftyPrice (world_remote_down sunday_0915)
                       (with_slot (JsonText (VObj [])) initial_state))
  = Throw TypeError
  /\ localStorage (snd (fetchNiftyPrice (world_remote_down sunday_0915)
                                        (with_slot (JsonText (VObj [])) initial_state)))
     = Some (JsonText (VObj []))
  /\ statsRequests (snd (fetchNiftyPrice (world_remote_down sunday_0915)
                                         (with_slot (JsonText (VObj [])) initial_state)))
     = statsRequests (with_slot (JsonText (VObj [])) initial_state).
Proof.
  apply (closed_tick_stuck_on_unshowable_cache
           (world_remote_down sunday_0915)
           (with_slot (JsonText (VObj [])) initial_state) (VObj [])).
  - intros n. reflexivity.
  - reflexivity.
  - reflexivity.
Defined.

(** X8. The hardcoded default quote is what a tick at a closed market shows
    when the cached text does not parse: it is shown marked as
    last-trading-day data, no request is sent, and the text that does not
    parse stays in the slot. *)
Theorem closed_tick_shows_default_on_corrupt_cache (w : world) (s : state) :
  isMarketOpenAt (clock w (clockReads s)) = false ->
  localStorage s = Some Garbled ->
  let s1 := set_clockReads (S (clockReads s)) s in
  let s' := rendered true getDefaultLastTradingDayData (clock w (S (clockReads s))) s1 in
  fetchNiftyPrice w s = (Ret tt, s')
  /\ currentData s' = getDefaultLastTradingDayData
  /\ hd_error (dom s') = Some ("lastUpdated", TimeString (clock w (S (clockReads s))) true)
  /\ localStorage s' = Some Garbled
  /\ statsRequests s' = statsRequests s.
Proof.
  intros Hclosed Hslot. cbv zeta.
  split; [|repeat split; exact Hslot].
  apply (closed_tick_with w s (set_clockReads (S (clockReads s)) s)
                          getDefaultLastTradingDayData Hclosed);
    [|reflexivity].
  apply getLastTradingDayData_garbled. exact Hslot.
Qed.

Lemma closed_tick_shows_default_on_corrupt_cache_witness :
  let s := with_slot Garbled initial_state in
  let w := world_remote_down sunday_0915 in
  let s1 := set_clockReads (S (clockReads s)) s in
  let s' := rendered true getDefaultLastTradingDayData (clock w (S (clockReads s))) s1 in
  fetchNiftyPrice w s = (Ret tt, s')
  /\ currentData s' = getDefaultLastTradingDayData
  /\ hd_error (dom s') = Some ("lastUpdated", TimeString (clock w (S (clockReads s))) true)
  /\ localStorage s' = Some Garbled
  /\ statsRequests s' = statsRequests s.
Proof.
  apply (closed_tick_shows_default_on_corrupt_cache
           (world_remote_down sunday_0915) (with_slot Garbled initial_state));
    reflexivity.
Defined.

(** ** The remote lookup and the cache *)

Lemma js_or_truthy (x fallback : jsval) :
  truthy fallback = true -> truthy (js_or x fallback) = true.
Proof.
  intros Hfallback. unfold js_or.
  destruct (truthy x) eqn:Hx; assumption.
Qed.

(** X9. [fetchLastTradingDayFromAPI] never throws and sends exactly one
    request.  It returns [null] with the slot untouched, or a record marked
    [isLastTradingDay] whose price, high, low, open and close are truthy
    whatever the payload held (change and changePercent may be 0), and in
    that case the slot holds the serialisation of the very record it
    returns. *)
Theorem fetchLastTradingDayFromAPI_null_or_filled_record (w : world) (s : state) :
  exists v s',
    fetchLastTradingDayFromAPI w s = (Ret v, s')
    /\ statsRequests s' = S (statsRequests s)
    /\ ((v = VNull /\ localStorage s' = localStorage s)
        \/ (get_prop v "isLastTradingDay" = Ret (VBool true)
            /\ forallb (fun field => truthy (get_opt v field))
                       ["price"; "high"; "low"; "open"; "close"] = true
            /\ localStorage s' = Some (JSON_stringify v))).
Proof.
  destruct (fetchLastTradingDayFromAPI_outcome w s)
    as [Hnull|(body & data & _ & _ & _ & Hrun)].
  - exists VNull, (asked_stats s).
    split; [exact Hnull|]. split; [reflexivity|]. left. split; reflexivity.
  - eexists. eexists. split; [exact Hrun|]. split; [reflexivity|].
    right. split; [reflexivity|]. split; [|reflexivity].
    unfold historicalRecord, lastTradingDayQuote, get_opt. cbn.
    rewrite !js_or_truthy by reflexivity. reflexivity.
Qed.

(** X10. [getLastTradingDayData] never throws, sends at most one request,
    and touches nothing but the slot and the count of requests to the
    historical endpoint. *)
Theorem getLastTradingDayData_never_throws (w : world) (s : state) :
  exists v s',
    getLastTradingDayData w s = (Ret v, s')
    /\ (statsRequests s' <= S (statsRequests s))%nat
    /\ currentData s' = currentData s
    /\ priceHistory s' = priceHistory s
    /\ dom s' = dom s
    /\ clockReads s' = clockReads s
    /\ priceRequests s' = priceRequests s.
Proof.
  assert (Hcases :
    getLastTradingDayData w s = fetchLastTradingDayFromAPI w s
    \/ (exists v, getLastTradingDayData w s = (Ret v, s))).
  { unfold getLastTradingDayData, try_catch, bind, gets.
    destruct (localStorage s) as [[|v|]|]; cbn [hasText JSON_parse lift].
    - left. destruct (fetchLastTradingDayFromAPI_outcome w s)
        as [->|(body & data & _ & _ & _ & ->)]; reflexivity.
    - right. exists v. reflexivity.
    - right. exists getDefaultLastTradingDayData. reflexivity.
    - left. destruct (fetchLastTradingDayFromAPI_outcome w s)
        as [->|(body & data & _ & _ & _ & ->)]; reflexivity. }
  destruct Hcases as [Hremote|[v Hlocal]].
  - rewrite Hremote.
    destruct (fetchLastTradingDayFromAPI_outcome w s)
      as [->|(body & data & _ & _ & _ & ->)];
      eexists; eexists; (split; [reflexivity|]); cbn; repeat split; lia.
  - exists v, s. split; [exact Hlocal|]. repeat split. lia.
Qed.













(** ** Ticks while the market is open *)

Lemma tryFetchFromFinance_success
  (w : world) (s : state) (body first priceData : jsval) :
  fetch_price w (priceRequests s) = Response true (Some body) ->
  first_result body = Ret first ->
  get_prop first "price" = Ret priceData ->
  forallb (fun field => negb (nullish (get_opt priceData field))) liveFields = true ->
  tryFetchFromFinance w s = (Ret (liveQuote priceData), asked_price s).
Proof.
  intros Hresp Hfirst Hprice Hall.
  unfold liveFields in Hall. cbn [forallb] in Hall.
  rewrite !andb_true_iff, !negb_true_iff in Hall.
  destruct Hall as (H1 & H2 & H3 & H4 & H5 & H6 & H7 & _).
  assert (Hpd : nullish priceData = false).
  { destruct priceData; try reflexivity; cbn in H1; discriminate. }
  assert (Hraw : forall field st,
             nullish (get_opt priceData field) = false ->
             raw_of priceData field w st = (Ret (raw_field priceData field), st)).
  { intros field st Hwrapped. rewrite raw_of_run.
    rewrite (get_prop_get_opt priceData field Hpd).
    rewrite (get_prop_get_opt _ "raw" Hwrapped). reflexivity. }
  unfold tryFetchFromFinance.
  apply try_catch_ret.
  erewrite bind_ret; [|unfold fetch; rewrite Hresp; reflexivity].
  cbv iota beta.
  erewrite bind_ret; [|reflexivity].
  erewrite bind_ret; [|unfold lift; rewrite Hfirst; reflexivity].
  erewrite bind_ret; [|unfold lift; rewrite Hprice; reflexivity].
  erewrite bind_ret; [|apply Hraw; exact H1].
  erewrite bind_ret; [|apply Hraw; exact H2].
  erewrite bind_ret; [|apply Hraw; exact H3].
  erewrite bind_ret; [|apply Hraw; exact H4].
  erewrite bind_ret; [|apply Hraw; exact H5].
  erewrite bind_ret; [|apply Hraw; exact H6].
  erewrite bind_ret; [|apply Hraw; exact H7].
  reflexivity.
Qed.

(** X13. A tick at an open market whose live request brings a payload with
    all seven entries, making a quote that can be shown, shows exactly the
    [raw] values of the payload, not marked as last-trading-day data, after
    one request: no random number is drawn (nothing is made up), nothing is
    rounded, and the cache is not touched. *)
Theorem open_tick_shows_live_quote
  (w : world) (s : state) (body first priceData : jsval) :
  isMarketOpenAt (clock w (clockReads s)) = true ->
  fetch_price w (priceRequests s) = Response true (Some body) ->
  first_result body = Ret first ->
  get_prop first "price" = Ret priceData ->
  forallb (fun field => negb (nullish (get_opt priceData field))) liveFields = true ->
  renderable (liveQuote priceData) = true ->
  let s1 := asked_price (set_clockReads (S (clockReads s)) s) in
  let s' := rendered false (liveQuote priceData) (clock w (S (clockReads s))) s1 in
  fetchNiftyPrice w s = (Ret tt, s')
  /\ currentData s' = liveQuote priceData
  /\ hd_error (dom s') = Some ("lastUpdated", TimeString (clock w (S (clockReads s))) false)
  /\ randomDraws s' = randomDraws s
  /\ priceRequests s' = S (priceRequests s)
  /\ localStorage s' = localStorage s.
Proof.
  intros Hopen Hresp Hfirst Hprice Hall Hshow. cbv zeta.
  split; [|repeat split].
  unfold fetchNiftyPrice.
  apply try_catch_ret.
  erewrite bind_ret; [|apply isMarketOpen_run].
  rewrite Hopen.
  erewrite bind_ret;
    [|apply (tryFetchFromFinance_success w _ body first priceData); assumption].
  change (truthy (liveQuote priceData)) with true. cbv iota.
  unfold updateUI.
  destruct (render_outcome false (liveQuote priceData) w
              (asked_price (set_clockReads (S (clockReads s)) s)))
    as [[_ Hrun]|[Hno _]]; [exact Hrun | congruence].
Qed.

Lemma open_tick_shows_live_quote_witness :
  let w := world_price tuesday_0915 payload_live_full in
  let s := initial_state in
  let s1 := asked_price (set_clockReads (S (clockReads s)) s) in
  let s' := rendered false (liveQuote live_priceData) (clock w (S (clockReads s))) s1 in
  fetchNiftyPrice w s = (Ret tt, s')
  /\ currentData s' = liveQuote live_priceData
  /\ hd_error (dom s') = Some ("lastUpdated", TimeString (clock w (S (clockReads s))) false)
  /\ randomDraws s' = randomDraws s
  /\ priceRequests s' = S (priceRequests s)
  /\ localStorage s' = localStorage s.
Proof.
  apply (open_tick_shows_live_quote
           (world_price tuesday_0915 payload_live_full) initial_state
           payload_live_full (VObj [("price", live_priceData)]) live_priceData);
    reflexivity.
Defined.

(** A tick at an open market whose live request brings nothing runs mock
    generation on the state it found. *)
Lemma open_tick_live_down (w : world) (s : state) :
  (forall n : nat, isMarketOpenAt (clock w n) = true) ->
  succeeded (fetch_price w (priceRequests s)) = false ->
  fetchNiftyPrice w s
  = not_awaited generateMockData w
      (set_clockReads (S (S (clockReads s))) (asked_price s)).
Proof.
  intros Hopen Hdown.
  apply (open_tick_live_null w s Hopen).
  rewrite (tryFetchFromFinance_failure w s Hdown). reflexivity.
Qed.

Local Open Scope Q_scope.

(** X14. The mock quote is a plausible one: at an open market with the live
    lookup returning [null], last known price and close that are numbers, 0
    or of magnitude between 1 and a million, and draws of [Math.random] in
    [0, 1), the quote shown has low <= price <= high and
    low <= open <= high, its price is within 100.005 + 1e-6 of the last
    known price (of 24250 when that was 0; the 1e-6 covers the rounding of
    the arithmetic on doubles), and four numbers have been drawn. *)
Theorem mock_quote_is_plausible (w : world) (s : state) (p c : Q) :
  (forall n : nat, isMarketOpenAt (clock w n) = true) ->
  fst (tryFetchFromFinance w s) = Ret VNull ->
  get_prop (currentData s) "price" = Ret (VNum (Fin p)) ->
  get_prop (currentData s) "close" = Ret (VNum (Fin c)) ->
  p == 0 \/ 1 <= Qabs p -> Qabs p <= 1000000 ->
  c == 0 \/ 1 <= Qabs c -> Qabs c <= 1000000 ->
  (forall n : nat, 0 <= Math_random w n < 1) ->
  exists s' price change changePercent high low open previousClose basePrice,
    fetchNiftyPrice w s = (Ret tt, s')
    /\ currentData s'
       = quote (VNum (Fin price)) (VNum (Fin change)) (VNum (Fin changePercent))
               (VNum (Fin high)) (VNum (Fin low)) (VNum (Fin open))
               (VNum (Fin previousClose))
    /\ js_or (VNum (Fin p)) (qnum 24250) = VNum (Fin basePrice)
    /\ low <= price <= high
    /\ low <= open <= high
    /\ Qabs (price - basePrice) <= 100 + (1 # 200) + (1 # 1000000)
    /\ randomDraws s' = (4 + randomDraws s)%nat.
Proof.
  intros Hopen Hnull Hprice Hclose Hp Hpmax Hc Hcmax Hdraws.
  destruct (mock_tick w s p c Hopen Hnull Hprice Hclose Hp Hpmax Hc Hcmax)
    as (s' & bp & pc & Hbase & _ & Hbpmax & Hpc1 & Hpcmax
        & Hrun & Hcur & _ & _ & Hcount).
  apply Qabs_Qle_condition in Hbpmax. destruct Hbpmax as [Hbpl Hbph].
  pose proof (Hdraws (randomDraws s)) as Hr.
  destruct (mock_currentPrice bp _ Hbpl Hbph Hr) as (cp & Hcp & Hcpl & Hcph).
  destruct (mock_fields cp pc) as (price & change & changePercent
                                   & Eprice & Echange & Epercent & Hnear & _ & _);
    [lra | lra | exact Hpc1 | exact Hpcmax |].
  destruct (mock_range cp _ _ _ ltac:(lra) ltac:(lra)
              (Hdraws (S (randomDraws s))) (Hdraws (S (S (randomDraws s))))
              (Hdraws (S (S (S (randomDraws s))))))
    as (high & low & open & Ehigh & Elow & Eopen & Hhigh & Hlow & Hopen1 & Hopen2).
  exists s', price, change, changePercent, high, low, open, pc, bp.
  split; [exact Hrun|].
  split.
  { rewrite Hcur. unfold mockQuoteOf. cbv zeta.
    rewrite Hcp, Eprice, Echange, Epercent, Ehigh, Elow, Eopen. reflexivity. }
  split; [exact Hbase|].
  apply Qabs_Qle_condition in Hnear.
  split; [split; lra|].
  split; [split; lra|].
  split; [apply Qabs_Qle_condition; split; lra|].
  exact Hcount.
Qed.

Lemma mock_quote_is_plausible_witness :
  exists s' price change changePercent high low open previousClose basePrice,
    fetchNiftyPrice (world_remote_down tuesday_0915) initial_state = (Ret tt, s')
    /\ currentData s'
       = quote (VNum (Fin price)) (VNum (Fin change)) (VNum (Fin changePercent))
               (VNum (Fin high)) (VNum (Fin low)) (VNum (Fin open))
               (VNum (Fin previousClose))
    /\ js_or (VNum (Fin 0)) (qnum 24250) = VNum (Fin basePrice)
    /\ low <= price <= high
    /\ low <= open <= high
    /\ Qabs (price - basePrice) <= 100 + (1 # 200) + (1 # 1000000)
    /\ randomDraws s' = (4 + randomDraws initial_state)%nat.
Proof.
  apply (mock_quote_is_plausible (world_remote_down tuesday_0915) initial_state 0 0).
  - intros n. reflexivity.
  - reflexivity.
  - reflexivity.
  - reflexivity.
  - left. reflexivity.
  - discriminate.
  - left. reflexivity.
  - discriminate.
  - intros n. split; [discriminate | reflexivity].
Defined.

Local Open Scope Z_scope.

(** X15. A live quote without its price wipes the last known price before
    the fallback runs: at an open market, when the payload has all seven
    entries but no [raw] (or a [null] one) under [regularMarketPrice] and a
    number as previous close, [updateUI] fails after it has overwritten
    [currentData], and the mock quote then shown starts from 24250 and from
    the payload's previous close, whatever the state held before. *)
Theorem live_quote_without_price_resets_mock_base
  (w : world) (s : state) (body first priceData : jsval) (c : Q) :
  (forall n : nat, isMarketOpenAt (clock w n) = true) ->
  fetch_price w (priceRequests s) = Response true (Some body) ->
  first_result body = Ret first ->
  get_prop first "price" = Ret priceData ->
  forallb (fun field => negb (nullish (get_opt priceData field))) liveFields = true ->
  nullish (raw_field priceData "regularMarketPrice") = true ->
  raw_field priceData "regularMarketPreviousClose" = qnum c ->
  exists s',
    fetchNiftyPrice w s = (Ret tt, s')
    /\ currentData s'
       = mockQuote 0 c (Math_random w (randomDraws s))
                   (Math_random w (S (randomDraws s)))
                   (Math_random w (S (S (randomDraws s))))
                   (Math_random w (S (S (S (randomDraws s)))))
    /\ hd_error (dom s')
       = Some ("lastUpdated", TimeString (clock w (S (S (S (clockReads s))))) false)
    /\ unhandledRejections s' = unhandledRejections s.
Proof.
  intros Hopen Hresp Hfirst Hprice Hall Hnoprice Hclose.
  set (s1 := asked_price (set_clockReads (S (clockReads s)) s)).
  assert (Hno : renderable (liveQuote priceData) = false).
  { unfold renderable.
    change (get_opt (liveQuote priceData) "price")
      with (raw_field priceData "regularMarketPrice").
    destruct (raw_field priceData "regularMarketPrice"); try discriminate; reflexivity. }
  destruct (render_outcome false (liveQuote priceData) w s1)
    as [[Hyes _]|[_ [d Hrender]]]; [congruence|].
  set (s2 := set_dom d (set_currentData (liveQuote priceData) s1)) in *.
  set (s3 := set_clockReads (S (clockReads s2)) s2).
  destruct (generateMockData_run w s3
              (raw_field priceData "regularMarketPrice")
              (raw_field priceData "regularMarketPreviousClose")
              (ToNumber_of (mockBasePrice 0)) (ToNumber_of (mockPreviousClose 0 c))
              (Hopen _))
    as (s' & Hrun & Hcur & Hdom & Hrej & _).
  - reflexivity.
  - reflexivity.
  - destruct (raw_field priceData "regularMarketPrice"); try discriminate;
      vm_compute; reflexivity.
  - rewrite Hclose. unfold mockPreviousClose.
    replace (mockBasePrice 0) with (VNum (Fin 24250)) by (vm_compute; reflexivity).
    unfold js_or, qnum. destruct (truthy (VNum (double c))); reflexivity.
  - exists s'. split; [|split; [exact Hcur | split; [exact Hdom | exact Hrej]]].
    unfold fetchNiftyPrice.
    erewrite try_catch_throw; cycle 1.
    { erewrite bind_ret; [|apply isMarketOpen_run].
      rewrite Hopen.
      erewrite bind_ret;
        [|apply (tryFetchFromFinance_success w _ body first priceData); assumption].
      change (truthy (liveQuote priceData)) with true. cbv iota.
      exact Hrender. }
    erewrite bind_ret; [|apply isMarketOpen_run].
    rewrite Hopen. cbn [negb].
    unfold not_awaited. fold s3. rewrite Hrun. reflexivity.
Qed.

Lemma live_quote_without_price_resets_mock_base_witness :
  exists s',
    fetchNiftyPrice (world_price tuesday_0915 payload_price_without_raw)
                    (set_currentData getDefaultLastTradingDayData initial_state)
      = (Ret tt, s')
    /\ currentData s'
       = mockQuote 0 24250 (3 # 4) (3 # 4) (3 # 4) (3 # 4)
    /\ hd_error (dom s') = Some ("lastUpdated", TimeString tuesday_0915 false)
    /\ unhandledRejections s' = [].
Proof.
  apply (live_quote_without_price_resets_mock_base
           (world_price tuesday_0915 payload_price_without_raw)
           (set_currentData getDefaultLastTradingDayData initial_state)
           payload_price_without_raw
           (VObj [("price",
                   VObj [("regularMarketPrice", VObj []);
                         ("regularMarketChange", VObj [("raw", qnum 50)]);
                         ("regularMarketChangePercent", VObj [("raw", qnum 0.21)]);
                         ("regularMarketDayHigh", VObj [("raw", qnum 24400)]);
                         ("regularMarketDayLow", VObj [("raw", qnum 24200)]);
                         ("regularMarketOpen", VObj [("raw", qnum 24260)]);
                         ("regularMarketPreviousClose", VObj [("raw", qnum 24250)])])])
           (VObj [("regularMarketPrice", VObj []);
                  ("regularMarketChange", VObj [("raw", qnum 50)]);
                  ("regularMarketChangePercent", VObj [("raw", qnum 0.21)]);
                  ("regularMarketDayHigh", VObj [("raw", qnum 24400)]);
                  ("regularMarketDayLow", VObj [("raw", qnum 24200)]);
                  ("regularMarketOpen", VObj [("raw", qnum 24260)]);
                  ("regularMarketPreviousClose", VObj [("raw", qnum 24250)])])
           24250%Q);
    reflexivity.
Defined.

(** ** One append to the price history *)

(** X16. One call of [addToHistory] with a capacity of at least 1 puts the
    new price last.  Below the capacity nothing is dropped; at the capacity
    or above it exactly the oldest entry is dropped, so a history that is
    longer than the capacity stays as long as it was and is never cut back
    to the capacity. *)
Theorem addToHistory_newest_last_drops_one (w : world) (s : state) (price : jsval) :
  (1 <= maxHistoryLength s)%nat ->
  let history := priceHistory s in
  let history' := priceHistory (snd (addToHistory price w s)) in
  ((List.length history < maxHistoryLength s)%nat -> history' = history ++ [price])
  /\ ((maxHistoryLength s <= List.length history)%nat ->
      history' = tl history ++ [price]
      /\ List.length history' = List.length history).
Proof.
  intros Hcap. cbv zeta.
  unfold addToHistory, modify. cbn [snd priceHistory set_priceHistory].
  unfold push_shift. rewrite length_app. cbn [List.length].
  split.
  - intros Hbelow.
    destruct (Nat.ltb_spec (maxHistoryLength s) (List.length (priceHistory s) + 1));
      [lia | reflexivity].
  - intros Habove.
    destruct (Nat.ltb_spec (maxHistoryLength s) (List.length (priceHistory s) + 1));
      [|lia].
    destruct (priceHistory s) as [|oldest kept]; cbn in *; [lia|].
    split; [reflexivity|].
    rewrite length_app. cbn. lia.
Qed.

Lemma addToHistory_newest_last_drops_one_witness :
  let s := set_priceHistory prices_1_to_25 initial_state in
  let w := world_remote_down tuesday_0915 in
  let history := priceHistory s in
  let history' := priceHistory (snd (addToHistory (qnum 26) w s)) in
  ((List.length history < maxHistoryLength s)%nat -> history' = history ++ [qnum 26])
  /\ ((maxHistoryLength s <= List.length history)%nat ->
      history' = tl history ++ [qnum 26]
      /\ List.length history' = List.length history).
Proof.
  apply (addToHistory_newest_last_drops_one
           (world_remote_down tuesday_0915)
           (set_priceHistory prices_1_to_25 initial_state) (qnum 26)).
  cbn. lia.
Defined.

(** ** The weekly schedule *)

(** X17. The calendar knows no holidays and no dates: [isMarketOpen] gives
    the same answer a week later, for every time stamp. *)
Theorem isMarketOpen_repeats_weekly (now : Z) :
  isMarketOpenAt (now + 7 * msPerDay) = isMarketOpenAt now.
Proof.
  unfold isMarketOpenAt, toIST, msPerDay, msPerHour, msPerMinute, istOffset.
  cbn [getDay getHours getMinutes].
  replace (now + 7 * 86400000 + 19800000) with (now + 19800000 + 7 * 86400000) by ring.
  set (wall := now + 19800000).
  assert (Hday : (wall + 7 * 86400000) / 86400000 = wall / 86400000 + 7)
    by (apply Z.div_add; lia).
  assert (Hmod : (wall + 7 * 86400000) mod 86400000 = wall mod 86400000)
    by (apply Z.mod_add; lia).
  assert (Hhour : (wall + 7 * 86400000) mod 3600000 = wall mod 3600000).
  { replace (7 * 86400000) with (168 * 3600000) by reflexivity.
    apply Z.mod_add. lia. }
  rewrite Hday, Hmod, Hhour.
  replace (wall / 86400000 + 7 + 4) with (wall / 86400000 + 4 + 1 * 7) by ring.
  rewrite Z.mod_add by lia.
  reflexivity.
Qed.

(** ** After a tick that left no quote behind *)

(** X18. A [currentData] of [null] or [undefined] (what a failed tick at a
    closed market leaves behind) disables the mock fallback: at an open
    market with the live request failing, the tick returns normally but
    shows nothing, appends nothing, draws nothing, and leaves [currentData]
    as it was, while the TypeError of mock generation is lost in a promise
    nobody awaits; so the same happens on every such tick that follows. *)
Theorem null_currentData_disables_mock (w : world) (s : state) :
  (forall n : nat, isMarketOpenAt (clock w n) = true) ->
  succeeded (fetch_price w (priceRequests s)) = false ->
  nullish (currentData s) = true ->
  let s' := snd (fetchNiftyPrice w s) in
  fst (fetchNiftyPrice w s) = Ret tt
  /\ currentData s' = currentData s
  /\ dom s' = dom s
  /\ priceHistory s' = priceHistory s
  /\ randomDraws s' = randomDraws s
  /\ unhandledRejections s' = unhandledRejections s ++ [TypeError].
Proof.
  intros Hopen Hdown Hnull. cbv zeta.
  rewrite (open_tick_live_down w s Hopen Hdown).
  set (s0 := set_clockReads (S (S (clockReads s))) (asked_price s)).
  assert (Hmock : generateMockData w s0
                  = (Throw TypeError, set_clockReads (S (clockReads s0)) s0)).
  { unfold generateMockData.
    erewrite bind_ret; [|apply isMarketOpen_run].
    rewrite Hopen. cbn [negb].
    erewrite bind_ret; [|reflexivity].
    apply bind_throw. unfold lift.
    cbn [currentData set_clockReads set_priceRequests asked_price s0].
    destruct (currentData s); try discriminate; reflexivity. }
  unfold not_awaited. rewrite Hmock.
  repeat split.
Qed.

Lemma null_currentData_disables_mock_witness :
  let w := world_remote_down tuesday_0915 in
  let s := after_closed_tick initial_state in
  let s' := snd (fetchNiftyPrice w s) in
  fst (fetchNiftyPrice w s) = Ret tt
  /\ currentData s' = currentData s
  /\ dom s' = dom s
  /\ priceHistory s' = priceHistory s
  /\ randomDraws s' = randomDraws s
  /\ unhandledRejections s' = unhandledRejections s ++ [TypeError].
Proof.
  apply (null_currentData_disables_mock (world_remote_down tuesday_0915)
                                        (after_closed_tick initial_state)).
  - intros n. reflexivity.
  - reflexivity.
  - reflexivity.
Defined.
